(** * Calculator: the expression buffer and its evaluator

    A shallow embedding of [CalculatorLogic] from [src/main.py]: the class
    keeps an expression buffer and a history of finished calculations, and
    evaluates the buffer with Python's [eval] under a namespace allowlist.

    The file has three parts:
    - [Py]: the part of the Python runtime that the class calls
      ([str] methods, [float], [str], [eval] on an arithmetic fragment);
    - the class itself, method by method, as state transformers;
    - the properties of the class. *)

From Stdlib Require Import ZArith NArith List Bool Lia SpecFloat.
From Stdlib Require Import Strings.Byte.
From Stdlib Require DecimalFacts DecimalPos DecimalN.
Import ListNotations.

Set Implicit Arguments.

(** ** Python strings

    A Python [str] is a sequence of Unicode code points.  Literals are written
    between double quotes and decoded from the UTF-8 bytes of this file, so
    that ["×"] is the one-element string [[215]]. *)

Module Utf8.

Definition continuation (b : byte) : option N :=
  let n := Byte.to_N b in
  if ((128 <=? n) && (n <? 192))%N then Some (n - 128)%N else None.

Fixpoint decode_aux (fuel : nat) (bs : list byte) : option (list N) :=
  match fuel, bs with
  | _, [] => Some []
  | O, _ :: _ => None
  | S fuel, b :: rest =>
      let n := Byte.to_N b in
      if (n <? 128)%N then option_map (cons n) (decode_aux fuel rest)
      else if (n <? 192)%N then None
      else if (n <? 224)%N then
        match rest with
        | b1 :: rest' =>
            match continuation b1 with
            | Some c1 =>
                option_map (cons ((n - 192) * 64 + c1)%N) (decode_aux fuel rest')
            | None => None
            end
        | _ => None
        end
      else if (n <? 240)%N then
        match rest with
        | b1 :: b2 :: rest' =>
            match continuation b1, continuation b2 with
            | Some c1, Some c2 =>
                option_map (cons ((n - 224) * 4096 + c1 * 64 + c2)%N)
                           (decode_aux fuel rest')
            | _, _ => None
            end
        | _ => None
        end
      else
        match rest with
        | b1 :: b2 :: b3 :: rest' =>
            match continuation b1, continuation b2, continuation b3 with
            | Some c1, Some c2, Some c3 =>
                option_map
                  (cons ((n - 240) * 262144 + c1 * 4096 + c2 * 64 + c3)%N)
                  (decode_aux fuel rest')
            | _, _, _ => None
            end
        | _ => None
        end
  end.

Definition decode (bs : list byte) : option (list N) :=
  decode_aux (length bs) bs.

Definition byte_of (n : N) : byte :=
  match Byte.of_N n with Some b => b | None => x00 end.

Definition encode1 (c : N) : list byte :=
  (if c <? 128 then [byte_of c]
   else if c <? 2048 then [byte_of (192 + c / 64); byte_of (128 + c mod 64)]
   else if c <? 65536 then
     [byte_of (224 + c / 4096); byte_of (128 + (c / 64) mod 64);
      byte_of (128 + c mod 64)]
   else
     [byte_of (240 + c / 262144); byte_of (128 + (c / 4096) mod 64);
      byte_of (128 + (c / 64) mod 64); byte_of (128 + c mod 64)])%N.

Definition encode (s : list N) : list byte := flat_map encode1 s.

(** The carrier of the literal notation: a list of code points, spelled as
    an inductive type of its own. *)
Inductive literal := LEmpty | LChr (c : N) (s : literal).

Fixpoint to_literal (s : list N) : literal :=
  match s with [] => LEmpty | c :: s => LChr c (to_literal s) end.

Fixpoint of_literal (l : literal) : list N :=
  match l with LEmpty => [] | LChr c s => c :: of_literal s end.

Definition parse (bs : list byte) : option literal :=
  option_map to_literal (decode bs).

Definition print (l : literal) : list byte := encode (of_literal l).

End Utf8.

(** A code point. *)
Definition char := N.

(** A Python string. *)
Definition str := list char.

Declare Scope py_scope.
Delimit Scope py_scope with py.
#[warnings="-via-type-mismatch,-via-type-remapping"]
String Notation str Utf8.parse Utf8.print
  (via Utf8.literal mapping [[nil] => Utf8.LEmpty, [cons] => Utf8.LChr])
  : py_scope.
Open Scope py_scope.

Definition char_eqb : char -> char -> bool := N.eqb.

(** The code point of a one-character literal. *)
Definition chr (s : str) : char := hd 0%N s.

Fixpoint str_eqb (a b : str) : bool :=
  match a, b with
  | [], [] => true
  | x :: a', y :: b' => char_eqb x y && str_eqb a' b'
  | _, _ => false
  end.

(** ** The Python runtime used by the class

    [main.py] relies on the interpreter for [str.strip], [str.startswith],
    slices, [float], [str], [dict] and [eval].  They are modelled here as
    CPython defines them, with three provisos.
    - [eval] is modelled on a fragment of the expression language: decimal
      literals, names, [+ - * / // % **], parentheses, calls and attribute
      references, on integers, floats, the functions of the allowlist and
      the empty dictionary.  On that fragment the model says what [eval]
      returns or raises; it says [Beyond] wherever the fragment ends, and
      what [eval] does there is a parameter of the development.
    - The decimal digits of Unicode outside ASCII, which [float] accepts,
      are a parameter as well.
    - Integers are unbounded and the limits of an implementation (nesting
      depth, the length of the decimal text of an integer, memory) are not
      modelled. *)

Module Py.

(** *** [str] methods *)

(** [str.isspace] on one code point (the whitespace of the Unicode
    database, which [str.strip] removes). *)
Definition is_space (c : char) : bool :=
  (((9 <=? c) && (c <=? 13)) || ((28 <=? c) && (c <=? 32))
   || (c =? 133) || (c =? 160) || (c =? 5760)
   || ((8192 <=? c) && (c <=? 8202)) || (c =? 8232) || (c =? 8233)
   || (c =? 8239) || (c =? 8287) || (c =? 12288))%N.

(** The whitespace of the C locale, which [float] strips. *)
Definition is_ascii_space (c : char) : bool :=
  (((9 <=? c) && (c <=? 13)) || (c =? 32))%N.

Definition is_digit (c : char) : bool := ((48 <=? c) && (c <=? 57))%N.

Fixpoint drop_while (p : char -> bool) (s : str) : str :=
  match s with
  | c :: s' => if p c then drop_while p s' else s
  | [] => []
  end.

Definition drop_while_end (p : char -> bool) (s : str) : str :=
  rev (drop_while p (rev s)).

(** [s.strip()] *)
Definition strip (s : str) : str :=
  drop_while_end is_space (drop_while is_space s).

(** [s.startswith(prefix)] *)
Fixpoint startswith (s prefix : str) {struct prefix} : bool :=
  match prefix, s with
  | [], _ => true
  | p :: prefix', c :: s' => char_eqb c p && startswith s' prefix'
  | _ :: _, [] => false
  end.

(** [s[1:]] and [s[:-1]] *)
Definition slice_from_1 (s : str) : str := tl s.
Definition slice_to_last (s : str) : str := removelast s.

(** *** Integers as text *)

Fixpoint uint_chars (u : Decimal.uint) : str :=
  match u with
  | Decimal.Nil => []
  | Decimal.D0 u => 48%N :: uint_chars u
  | Decimal.D1 u => 49%N :: uint_chars u
  | Decimal.D2 u => 50%N :: uint_chars u
  | Decimal.D3 u => 51%N :: uint_chars u
  | Decimal.D4 u => 52%N :: uint_chars u
  | Decimal.D5 u => 53%N :: uint_chars u
  | Decimal.D6 u => 54%N :: uint_chars u
  | Decimal.D7 u => 55%N :: uint_chars u
  | Decimal.D8 u => 56%N :: uint_chars u
  | Decimal.D9 u => 57%N :: uint_chars u
  end.

(** The decimal digits of a natural number, most significant first. *)
Definition digits_of (n : Z) : str := uint_chars (N.to_uint (Z.to_N n)).

(** [str(n)] for an [int]. *)
Definition str_of_int (n : Z) : str :=
  if (n <? 0)%Z then "-" ++ digits_of (- n) else digits_of n.

(** The number a run of decimal digits denotes. *)
Definition digits_value (ds : str) : Z :=
  fold_left (fun acc c => acc * 10 + Z.of_N (c - 48))%Z ds 0%Z.

Fixpoint span_digits (s : str) : str * str :=
  match s with
  | c :: s' =>
      if is_digit c then let (d, r) := span_digits s' in (c :: d, r)
      else ([], s)
  | [] => ([], [])
  end.

(** *** Floats: IEEE 754 binary64 *)

Definition prec : Z := 53.
Definition emax : Z := 1024.

Definition float := spec_float.

(** The float nearest to [n / d] (ties to even), for [0 <= n] and [0 < d]:
    the quotient is taken with two guard bits and its remainder is handed to
    the rounding as the location of the exact value. *)
Definition round_ratio (neg : bool) (n d : Z) : float :=
  (if n =? 0 then S754_zero neg
   else
     let k := Z.max 0 (prec + 2 + Z.log2 d - Z.log2 n) in
     let (q, r) := Z.div_eucl (n * 2 ^ k) d in
     let loc := if r =? 0 then loc_Exact else loc_Inexact (2 * r ?= d) in
     binary_round_aux prec emax neg q (- k) loc)%Z.

(** The float nearest to [m * 10 ^ x], for [0 <= m]. *)
Definition round_decimal (neg : bool) (m x : Z) : float :=
  (if 0 <=? x then round_ratio neg (m * 10 ^ x) 1
   else round_ratio neg m (10 ^ (- x)))%Z.

(** [float(n)] for an [int]; [None] is [OverflowError]. *)
Definition float_of_int (n : Z) : option float :=
  match round_ratio (n <? 0)%Z (Z.abs n) 1 with
  | S754_infinity _ => None
  | x => Some x
  end.

Definition float_eqb (x y : float) : bool := SFeqb x y.

(** [x * y], [x + y], [x - y] on floats. *)
Definition float_mul (x y : float) : float := SFmul prec emax x y.
Definition float_add (x y : float) : float := SFadd prec emax x y.
Definition float_sub (x y : float) : float := SFsub prec emax x y.

Definition float_is_zero (x : float) : bool :=
  match x with S754_zero _ => true | _ => false end.

(** [-1.0] *)
Definition minus_one : float := S754_finite true 4503599627370496 (-52).

(** **** [float(s)] for a [str] *)

Section FloatOfStr.

(** The decimal-digit property of the Unicode database
    ([Py_UNICODE_TODECIMAL]) for the code points from 128 on.  The table is
    not reproduced here; ASCII strings never consult it. *)
Variable unicode_decimal : char -> option N.

(** Non-ASCII whitespace becomes a space and a non-ASCII decimal digit its
    ASCII digit; the first other non-ASCII code point becomes ["?"] and ends
    the text. *)
Fixpoint to_ascii (s : str) : str :=
  match s with
  | [] => []
  | c :: s' =>
      if (c <? 128)%N then c :: to_ascii s'
      else if is_space c then 32%N :: to_ascii s'
      else match unicode_decimal c with
           | Some d => (48 + d)%N :: to_ascii s'
           | None => "?"
           end
  end.

(** Underscores may stand between two digits only; they are dropped.
    [prev] is the code point before [s]. *)
Fixpoint drop_underscores (prev : char) (s : str) : option str :=
  match s with
  | [] => if char_eqb prev (chr "_") then None else Some []
  | c :: s' =>
      if char_eqb c (chr "_") then
        if is_digit prev then drop_underscores c s' else None
      else if char_eqb prev (chr "_") && negb (is_digit c) then None
      else option_map (cons c) (drop_underscores c s')
  end.

Definition lower (c : char) : char :=
  if ((65 <=? c) && (c <=? 90))%N then (c + 32)%N else c.

(** An optional sign: whether it is a minus, and the rest. *)
Definition take_sign (s : str) : bool * str :=
  if startswith s "-" then (true, tl s)
  else if startswith s "+" then (false, tl s)
  else (false, s).

(** A decimal numeral without sign: [digits [. digits] [e [sign] digits]]
    with a digit before the exponent; the result is the pair [(m, x)] of
    the numeral [m * 10 ^ x]. *)
Definition parse_numeral (s : str) : option (Z * Z) :=
  let (ip, r1) := span_digits s in
  let (fp, r2) :=
    if startswith r1 "." then span_digits (tl r1) else ([], r1) in
  match ip ++ fp with
  | [] => None
  | ds =>
      let m := digits_value ds in
      let f := Z.of_nat (length fp) in
      match r2 with
      | [] => Some (m, - f)%Z
      | c :: r3 =>
          if char_eqb (lower c) (chr "e") then
            let (eneg, r4) := take_sign r3 in
            match span_digits r4 with
            | ((_ :: _) as ed, []) =>
                let x := digits_value ed in
                Some (m, (if eneg then - x else x) - f)%Z
            | _ => None
            end
          else None
      end
  end.

(** What follows the sign: a numeral, or [inf], [infinity] or [nan] in any
    letter case. *)
Definition parse_unsigned (neg : bool) (s : str) : option float :=
  match parse_numeral s with
  | Some (m, x) => Some (round_decimal neg m x)
  | None =>
      let l := map lower s in
      if str_eqb l "inf" || str_eqb l "infinity" then Some (S754_infinity neg)
      else if str_eqb l "nan" then Some S754_nan
      else None
  end.

(** The code points that a numeral, [inf] or [nan] can start with. *)
Definition starts_number (c : char) : bool :=
  is_digit c || char_eqb c (chr ".")
  || char_eqb (lower c) (chr "i") || char_eqb (lower c) (chr "n").

(** [float(s)]; [None] is [ValueError]. *)
Definition float_of_str (s : str) : option float :=
  let t := drop_while_end is_ascii_space (drop_while is_ascii_space (to_ascii s)) in
  match drop_underscores 0%N t with
  | None => None
  | Some t' => let (neg, r) := take_sign t' in parse_unsigned neg r
  end.

End FloatOfStr.

(** **** [str(x)] for a float: the shortest decimal text that reads back as [x] *)

(** [n / d < 10 ^ p] *)
Definition below_pow10 (n d p : Z) : bool :=
  (if 0 <=? p then n <? d * 10 ^ p else n * 10 ^ (- p) <? d)%Z.

Fixpoint first_pow10_above (fuel : nat) (n d p : Z) : Z :=
  match fuel with
  | O => p
  | S fuel =>
      if below_pow10 n d p then p else first_pow10_above fuel n d (p + 1)%Z
  end.

(** The position of the decimal point of [n / d]: the least [p] with
    [n / d < 10 ^ p], found upwards from an estimate by binary logarithms. *)
Definition decimal_point (n d : Z) : Z :=
  first_pow10_above 8 n d ((Z.log2 n - Z.log2 d) * 30103 / 100000 - 1)%Z.

(** The decimal [c * 10 ^ x] reads back as [v]. *)
Definition reads_back (v : float) (c x : Z) : bool :=
  float_eqb (round_decimal false c x) v.

(** The candidate with [k] significant digits for the positive float
    [v = n / d] with decimal point [p]: of the two [k]-digit decimals around
    [v], the nearer one among those that read back as [v]. *)
Definition candidate (v : float) (n d p : Z) (k : Z) : option Z :=
  (let x := p - k in
   let (lo, r) :=
     if 0 <=? x then Z.div_eucl n (d * 10 ^ x)
     else Z.div_eucl (n * 10 ^ (- x)) d in
   let den := if 0 <=? x then d * 10 ^ x else d in
   let hi := lo + 1 in
   let lo_ok := reads_back v lo x in
   let hi_ok := negb (r =? 0) && reads_back v hi x in
   match lo_ok, hi_ok with
   | false, false => None
   | true, false => Some lo
   | false, true => Some hi
   | true, true =>
       match 2 * r ?= den with
       | Lt => Some lo
       | Gt => Some hi
       | Eq => if Z.even lo then Some lo else Some hi
       end
   end)%Z.

Fixpoint shortest_from (fuel : nat) (v : float) (n d p k : Z) : Z * Z :=
  match fuel with
  | O => (fst (Z.div_eucl (n * 10 ^ (k - p)) d), k)%Z
  | S fuel =>
      match candidate v n d p k with
      | Some c => (c, k)
      | None => shortest_from fuel v n d p (k + 1)%Z
      end
  end.

Definition strip_zeros (ds : str) : str :=
  match drop_while_end (char_eqb (chr "0")) ds with
  | [] => "0"
  | ds' => ds'
  end.

(** The digits and the decimal point of the shortest text of the positive
    float [m * 2 ^ e]. *)
Definition shortest (m : positive) (e : Z) : str * Z :=
  let n := (if 0 <=? e then Zpos m * 2 ^ e else Zpos m)%Z in
  let d := (if 0 <=? e then 1 else 2 ^ (- e))%Z in
  let p := decimal_point n d in
  let (c, k) := shortest_from 17 (S754_finite false m e) n d p 1 in
  let ds := digits_of c in
  (strip_zeros ds, p + (Z.of_nat (length ds) - k))%Z.

Definition zeros (n : Z) : str := repeat (chr "0") (Z.to_nat n).

(** The exponent of the scientific form: a sign and at least two digits. *)
Definition exponent_text (x : Z) : str :=
  let ds := digits_of (Z.abs x) in
  (if (x <? 0)%Z then "-" else "+")
    ++ (if (length ds <? 2)%nat then "0" ++ ds else ds).

(** Scientific form from [1e16] on and below [1e-4], positional form with
    at least one digit after the point otherwise. *)
Definition format_repr (ds : str) (p : Z) : str :=
  let n := Z.of_nat (length ds) in
  (if (p <=? -4) || (16 <? p) then
     firstn 1 ds
       ++ (if 1 <? n then "." ++ skipn 1 ds else "")
       ++ "e" ++ exponent_text (p - 1)
   else if p <=? 0 then "0." ++ zeros (- p) ++ ds
   else if p <? n then
     firstn (Z.to_nat p) ds ++ "." ++ skipn (Z.to_nat p) ds
   else ds ++ zeros (p - n) ++ ".0")%Z.

(** [str(x)] for a float. *)
Definition str_of_float (x : float) : str :=
  match x with
  | S754_nan => "nan"
  | S754_infinity s => (if s then "-" else "") ++ "inf"
  | S754_zero s => (if s then "-" else "") ++ "0.0"
  | S754_finite s m e =>
      (if s then "-" else "") ++ let (ds, p) := shortest m e in format_repr ds p
  end.

(** *** Values, exceptions, dictionaries *)

(** The objects an expression of the fragment can denote.  [VFunc name]
    is the built-in function called [name]; [VOther text] is any other
    object, known only by what [str] makes of it. *)
Inductive value :=
| VInt (n : Z)
| VFloat (x : float)
| VFunc (name : str)
| VEmptyDict
| VOther (text : str).

(** The exception classes, all of them subclasses of [Exception];
    [KeyboardInterrupt] and [SystemExit], which are not, stay outside. *)
Inductive exn :=
| ZeroDivisionError
| SyntaxError
| NameError
| TypeError
| ValueError
| OverflowError
| AttributeError
| OtherException (name : str).

Definition is_ZeroDivisionError (e : exn) : bool :=
  match e with ZeroDivisionError => true | _ => false end.

(** What a call of the runtime does: it returns or it raises. *)
Inductive outcome :=
| Returns (v : value)
| Raises (e : exn).

(** A [dict] with [str] keys, in insertion order. *)
Definition dict (A : Type) := list (str * A).

Fixpoint dict_get {A} (d : dict A) (k : str) : option A :=
  match d with
  | [] => None
  | (k', v) :: d' => if str_eqb k' k then Some v else dict_get d' k
  end.

(** [d[k] = v] *)
Fixpoint dict_set {A} (d : dict A) (k : str) (v : A) : dict A :=
  match d with
  | [] => [(k, v)]
  | (k', v') :: d' =>
      if str_eqb k' k then (k, v) :: d' else (k', v') :: dict_set d' k v
  end.

(** [d.update(other)] *)
Definition dict_update {A} (d other : dict A) : dict A :=
  fold_left (fun acc kv => dict_set acc (fst kv) (snd kv)) other d.

(** [d.get(k, default)] *)
Definition dict_get_default {A} (d : dict A) (k : str) (default : A) : A :=
  match dict_get d k with Some v => v | None => default end.

Definition namespace := dict value.

(** [math.pi] and [math.e] *)
Definition math_pi : float := S754_finite false 7074237752028440 (-51).
Definition math_e : float := S754_finite false 6121026514868073 (-51).

(** [getattr(math, name)] for the names the class reads from the module:
    the two constants, and a built-in function for every other name. *)
Definition math_getattr (name : str) : value :=
  if str_eqb name "pi" then VFloat math_pi
  else if str_eqb name "e" then VFloat math_e
  else VFunc name.

(** [str(v)] *)
Definition str_of_value (v : value) : str :=
  match v with
  | VInt n => str_of_int n
  | VFloat x => str_of_float x
  | VFunc name => "<built-in function " ++ name ++ ">"
  | VEmptyDict => "{}"
  | VOther text => text
  end.

(** *** The outcome of a step of [eval] on the fragment

    [Ok a]: the step yields [a]; [Raise e]: it raises [e]; [Beyond]: the
    expression leaves the fragment modelled here. *)
Inductive res (A : Type) :=
| Ok (a : A)
| Raise (e : exn)
| Beyond.
Arguments Raise {A} e.
Arguments Beyond {A}.

Definition bind {A B} (m : res A) (k : A -> res B) : res B :=
  match m with
  | Ok a => k a
  | Raise e => Raise e
  | Beyond => Beyond
  end.

Notation "x <- m ;; k" := (bind m (fun x => k))
  (at level 61, m at next level, right associativity).
Notation "' p <- m ;; k" := (bind m (fun x => match x with p => k end))
  (at level 61, p pattern, m at next level, right associativity).

(** *** Tokens *)

Inductive token :=
| TInt (n : Z)
| TFloat (x : float)
| TName (s : str)
| TPlus | TMinus | TStar | TSlash | TDoubleSlash | TPercent | TDoubleStar
| TLParen | TRParen | TComma | TDot.

Definition is_ident_start (c : char) : bool :=
  (((65 <=? c) && (c <=? 90)) || ((97 <=? c) && (c <=? 122)) || (c =? 95))%N.

Definition is_ident_char (c : char) : bool := is_ident_start c || is_digit c.

Fixpoint span_ident (s : str) : str * str :=
  match s with
  | c :: s' =>
      if is_ident_char c then let (d, r) := span_ident s' in (c :: d, r)
      else ([], s)
  | [] => ([], [])
  end.

(** The keywords that occur in statements only: no expression holds one. *)
Definition statement_keywords : list str :=
  ["assert"; "break"; "class"; "continue"; "def"; "del"; "elif"; "except";
   "finally"; "global"; "import"; "nonlocal"; "pass"; "raise"; "return";
   "try"; "while"; "with"].

(** The keywords that expressions use; none of them is in the fragment. *)
Definition expression_keywords : list str :=
  ["False"; "None"; "True"; "and"; "as"; "async"; "await"; "else"; "for";
   "from"; "if"; "in"; "is"; "lambda"; "not"; "or"; "yield"].

Definition mem (s : str) (l : list str) : bool := existsb (str_eqb s) l.

(** A code point that may continue a number or a name: a letter, a digit,
    an underscore, or anything outside ASCII. *)
Definition continues_word (s : str) : bool :=
  match s with
  | c :: _ => is_ident_char c || (128 <=? c)%N
  | [] => false
  end.

(** A number at the head of [s], which starts with a digit or with a point
    and a digit.  Only plain decimal literals are in the fragment. *)
Definition lex_number (s : str) : res (token * str) :=
  let (ip, r1) := span_digits s in
  if startswith r1 "." || startswith (map lower r1) "e" then
    let (fp, r2) :=
      if startswith r1 "." then span_digits (tl r1) else ([], r1) in
    if startswith (map lower r2) "e" then
      let (eneg, r3) := take_sign (tl r2) in
      match span_digits r3 with
      | ((_ :: _) as ed, r4) =>
          if continues_word r4 then Beyond
          else
            let x := digits_value ed in
            Ok (TFloat (round_decimal false (digits_value (ip ++ fp))
                          ((if eneg then - x else x)
                           - Z.of_nat (length fp))%Z), r4)
      | _ => Beyond
      end
    else if continues_word r2 then Beyond
    else Ok (TFloat (round_decimal false (digits_value (ip ++ fp))
                       (- Z.of_nat (length fp))%Z), r2)
  else if continues_word r1 then Beyond
  else if startswith ip "0" && negb (forallb (char_eqb (chr "0")) ip)
  then Raise SyntaxError
  else Ok (TInt (digits_value ip), r1).

Definition lex_name (s : str) : res (token * str) :=
  let (name, r) := span_ident s in
  if continues_word r then Beyond
  else if mem name statement_keywords then Raise SyntaxError
  else if mem name expression_keywords then Beyond
  else Ok (TName name, r).

(** The tokens of [s].  Blanks between tokens are skipped; a code point
    that starts no token of the fragment leaves it. *)
Fixpoint lex (fuel : nat) (s : str) : res (list token) :=
  match fuel, s with
  | _, [] => Ok []
  | O, _ :: _ => Beyond
  | S fuel, c :: s' =>
      let one (t : token) (r : str) : res (list token) :=
        ts <- lex fuel r ;; Ok (t :: ts) in
      if char_eqb c (chr " ") || char_eqb c 9%N || char_eqb c 12%N
      then lex fuel s'
      else if is_digit c then '(t, r) <- lex_number s ;; one t r
      else if char_eqb c (chr ".") then
        match s' with
        | c' :: _ =>
            if is_digit c' then '(t, r) <- lex_number s ;; one t r
            else if char_eqb c' (chr ".") then Beyond
            else one TDot s'
        | [] => one TDot s'
        end
      else if is_ident_start c then '(t, r) <- lex_name s ;; one t r
      else if char_eqb c (chr "+") then one TPlus s'
      else if char_eqb c (chr "-") then one TMinus s'
      else if char_eqb c (chr "*") then
        if startswith s' "*" then one TDoubleStar (tl s') else one TStar s'
      else if char_eqb c (chr "/") then
        if startswith s' "/" then one TDoubleSlash (tl s') else one TSlash s'
      else if char_eqb c (chr "%") then one TPercent s'
      else if char_eqb c (chr "(") then one TLParen s'
      else if char_eqb c (chr ")") then one TRParen s'
      else if char_eqb c (chr ",") then one TComma s'
      else Beyond
  end.

Definition tokens (s : str) : res (list token) := lex (length s) s.

(** *** Expressions of the fragment *)

Inductive unop := UPlus | UMinus.

Inductive binop := Add | Sub | Mul | Div | FloorDiv | Mod | Pow.

#[warnings="-register-all"]
Inductive expr :=
| EInt (n : Z)
| EFloat (x : float)
| EName (s : str)
| EUnary (op : unop) (a : expr)
| EBin (op : binop) (a b : expr)
| ECall (f : expr) (args : list expr)
| EAttr (a : expr) (name : str).

(** The grammar, by precedence: sums of products of signed powers of
    primaries; a primary is an atom followed by attribute references and
    calls.  Tuples, argument unpacking and the empty tuple leave the
    fragment.  Every call spends one unit of [fuel]. *)
Fixpoint p_sum (fuel : nat) (ts : list token) {struct fuel}
  : res (expr * list token) :=
  match fuel with
  | O => Beyond
  | S fuel => '(a, r) <- p_product fuel ts ;; p_sum_rest fuel a r
  end
with p_sum_rest (fuel : nat) (acc : expr) (ts : list token) {struct fuel}
  : res (expr * list token) :=
  match fuel with
  | O => Beyond
  | S fuel =>
      match ts with
      | TPlus :: r =>
          '(b, r') <- p_product fuel r ;; p_sum_rest fuel (EBin Add acc b) r'
      | TMinus :: r =>
          '(b, r') <- p_product fuel r ;; p_sum_rest fuel (EBin Sub acc b) r'
      | _ => Ok (acc, ts)
      end
  end
with p_product (fuel : nat) (ts : list token) {struct fuel}
  : res (expr * list token) :=
  match fuel with
  | O => Beyond
  | S fuel => '(a, r) <- p_factor fuel ts ;; p_product_rest fuel a r
  end
with p_product_rest (fuel : nat) (acc : expr) (ts : list token) {struct fuel}
  : res (expr * list token) :=
  match fuel with
  | O => Beyond
  | S fuel =>
      let more (op : binop) (r : list token) :=
        '(b, r') <- p_factor fuel r ;; p_product_rest fuel (EBin op acc b) r' in
      match ts with
      | TStar :: r => more Mul r
      | TSlash :: r => more Div r
      | TDoubleSlash :: r => more FloorDiv r
      | TPercent :: r => more Mod r
      | _ => Ok (acc, ts)
      end
  end
with p_factor (fuel : nat) (ts : list token) {struct fuel}
  : res (expr * list token) :=
  match fuel with
  | O => Beyond
  | S fuel =>
      match ts with
      | TPlus :: r => '(a, r') <- p_factor fuel r ;; Ok (EUnary UPlus a, r')
      | TMinus :: r => '(a, r') <- p_factor fuel r ;; Ok (EUnary UMinus a, r')
      | _ => p_power fuel ts
      end
  end
with p_power (fuel : nat) (ts : list token) {struct fuel}
  : res (expr * list token) :=
  match fuel with
  | O => Beyond
  | S fuel =>
      '(a, r) <- p_primary fuel ts ;;
      match r with
      | TDoubleStar :: r1 =>
          '(b, r2) <- p_factor fuel r1 ;; Ok (EBin Pow a b, r2)
      | _ => Ok (a, r)
      end
  end
with p_primary (fuel : nat) (ts : list token) {struct fuel}
  : res (expr * list token) :=
  match fuel with
  | O => Beyond
  | S fuel => '(a, r) <- p_atom fuel ts ;; p_trailers fuel a r
  end
with p_trailers (fuel : nat) (acc : expr) (ts : list token) {struct fuel}
  : res (expr * list token) :=
  match fuel with
  | O => Beyond
  | S fuel =>
      match ts with
      | TDot :: TName name :: r => p_trailers fuel (EAttr acc name) r
      | TDot :: _ => Raise SyntaxError
      | TLParen :: r =>
          '(args, r') <- p_args fuel r ;; p_trailers fuel (ECall acc args) r'
      | _ => Ok (acc, ts)
      end
  end
with p_args (fuel : nat) (ts : list token) {struct fuel}
  : res (list expr * list token) :=
  match fuel with
  | O => Beyond
  | S fuel =>
      match ts with
      | TRParen :: r => Ok ([], r)
      | TStar :: _ | TDoubleStar :: _ => Beyond
      | _ =>
          '(a, r) <- p_sum fuel ts ;;
          match r with
          | TComma :: r1 => '(args, r2) <- p_args fuel r1 ;; Ok (a :: args, r2)
          | TRParen :: r1 => Ok ([a], r1)
          | _ => Raise SyntaxError
          end
      end
  end
with p_atom (fuel : nat) (ts : list token) {struct fuel}
  : res (expr * list token) :=
  match fuel with
  | O => Beyond
  | S fuel =>
      match ts with
      | TInt n :: r => Ok (EInt n, r)
      | TFloat x :: r => Ok (EFloat x, r)
      | TName s :: r => Ok (EName s, r)
      | TLParen :: TRParen :: _ => Beyond
      | TLParen :: r =>
          '(a, r1) <- p_sum fuel r ;;
          match r1 with
          | TRParen :: r2 => Ok (a, r2)
          | TComma :: _ => Beyond
          | _ => Raise SyntaxError
          end
      | TStar :: _ => Beyond
      | _ => Raise SyntaxError
      end
  end.

(** A whole expression: nothing may follow it but the comma of a tuple,
    which leaves the fragment. *)
Definition parse_tokens (ts : list token) : res expr :=
  '(a, r) <- p_sum (8 * length ts + 8) ts ;;
  match r with
  | [] => Ok a
  | TComma :: _ => Beyond
  | _ => Raise SyntaxError
  end.

(** [compile(source, "<string>", "eval")] on the fragment. *)
Definition parse (source : str) : res expr :=
  ts <- tokens source ;; parse_tokens ts.

(** *** Evaluation *)

(** A name is looked up in the locals, then in the globals, then in the
    builtins, which are the dictionary the globals hold under
    ["__builtins__"]. *)
Definition load_name (globals locals : namespace) (name : str) : res value :=
  match dict_get locals name with
  | Some v => Ok v
  | None =>
      match dict_get globals name with
      | Some v => Ok v
      | None =>
          match dict_get globals "__builtins__" with
          | Some VEmptyDict => Raise NameError
          | _ => Beyond
          end
      end
  end.

(** The conversion of an operand to a float. *)
Definition as_float (v : value) : res float :=
  match v with
  | VInt n =>
      match float_of_int n with
      | Some x => Ok x
      | None => Raise OverflowError
      end
  | VFloat x => Ok x
  | VOther _ => Beyond
  | VFunc _ | VEmptyDict => Raise TypeError
  end.

Definition unary (op : unop) (v : value) : res value :=
  match v with
  | VInt n => Ok (VInt (match op with UPlus => n | UMinus => - n end))
  | VFloat x => Ok (VFloat (match op with UPlus => x | UMinus => SFopp x end))
  | VOther _ => Beyond
  | VFunc _ | VEmptyDict => Raise TypeError
  end.

(** The operators on two [int]s.  [/] is the correctly rounded quotient;
    [//] and [%] round towards minus infinity. *)
Definition int_binop (op : binop) (a b : Z) : res value :=
  match op with
  | Add => Ok (VInt (a + b))
  | Sub => Ok (VInt (a - b))
  | Mul => Ok (VInt (a * b))
  | Div =>
      if (b =? 0)%Z then Raise ZeroDivisionError
      else
        match round_ratio (xorb (a <? 0)%Z (b <? 0)%Z) (Z.abs a) (Z.abs b) with
        | S754_infinity _ => Raise OverflowError
        | x => Ok (VFloat x)
        end
  | FloorDiv =>
      if (b =? 0)%Z then Raise ZeroDivisionError else Ok (VInt (a / b))
  | Mod =>
      if (b =? 0)%Z then Raise ZeroDivisionError else Ok (VInt (a mod b))
  | Pow =>
      if (0 <=? b)%Z then Ok (VInt (a ^ b))
      else if (a =? 0)%Z then Raise ZeroDivisionError
      else Beyond
  end.

(** The operators on two floats; the remainders and powers of floats are
    not in the fragment. *)
Definition float_binop (op : binop) (x y : float) : res value :=
  match op with
  | Add => Ok (VFloat (float_add x y))
  | Sub => Ok (VFloat (float_sub x y))
  | Mul => Ok (VFloat (float_mul x y))
  | Div =>
      if float_is_zero y then Raise ZeroDivisionError
      else Ok (VFloat (SFdiv prec emax x y))
  | FloorDiv | Mod =>
      if float_is_zero y then Raise ZeroDivisionError else Beyond
  | Pow => Beyond
  end.

Definition binary (op : binop) (a b : value) : res value :=
  match a, b with
  | VOther _, _ | _, VOther _ => Beyond
  | VInt x, VInt y => int_binop op x y
  | VInt _, VFloat _ | VFloat _, VInt _ | VFloat _, VFloat _ =>
      x <- as_float a ;; y <- as_float b ;; float_binop op x y
  | _, _ => Raise TypeError
  end.

Fixpoint factorial_nat (n : nat) : Z :=
  match n with
  | O => 1%Z
  | S n' => (Z.of_nat n * factorial_nat n')%Z
  end.

(** [math.floor(x)] and [math.ceil(x)] for a float. *)
Definition float_floor (up : bool) (x : float) : res value :=
  match x with
  | S754_nan => Raise ValueError
  | S754_infinity _ => Raise OverflowError
  | S754_zero _ => Ok (VInt 0)
  | S754_finite s m e =>
      let n := (if s then Z.neg m else Z.pos m) in
      if (0 <=? e)%Z then Ok (VInt (n * 2 ^ e))
      else
        let d := (2 ^ (- e))%Z in
        Ok (VInt (if up then - ((- n) / d) else n / d)%Z)
  end.

(** How many arguments a function of the allowlist takes, at least and at
    most. *)
Definition arity (name : str) : option (nat * nat) :=
  if mem name ["sin"; "cos"; "tan"; "sqrt"; "log10"; "exp"; "fabs"; "floor";
               "ceil"; "factorial"; "abs"]
  then Some (1, 1)%nat
  else if mem name ["log"; "round"] then Some (1, 2)%nat
  else if str_eqb name "pow" then Some (2, 2)%nat
  else None.

(** The call of a function of the allowlist whose first argument is [v];
    the number of arguments has been checked.  The transcendental
    functions, [pow] and [round] are in the fragment only for their
    rejection of an argument that is no number. *)
Definition call_builtin (name : str) (v : value) : res value :=
  match v with
  | VOther _ => Beyond
  | VFunc _ | VEmptyDict => Raise TypeError
  | VInt _ | VFloat _ =>
      if str_eqb name "abs" then
        match v with
        | VInt n => Ok (VInt (Z.abs n))
        | VFloat x => Ok (VFloat (SFabs x))
        | _ => Beyond
        end
      else if str_eqb name "fabs" then
        x <- as_float v ;; Ok (VFloat (SFabs x))
      else if str_eqb name "sqrt" then
        x <- as_float v ;;
        match x with
        | S754_finite true _ _ | S754_infinity true => Raise ValueError
        | _ => Ok (VFloat (SFsqrt prec emax x))
        end
      else if str_eqb name "floor" || str_eqb name "ceil" then
        match v with
        | VInt n => Ok (VInt n)
        | VFloat x => float_floor (str_eqb name "ceil") x
        | _ => Beyond
        end
      else if str_eqb name "factorial" then
        match v with
        | VInt n =>
            if (n <? 0)%Z then Raise ValueError
            else if (n <? 2 ^ 31)%Z then Ok (VInt (factorial_nat (Z.to_nat n)))
            else Beyond
        | _ => Beyond
        end
      else Beyond
  end.

(** The call of the object [f] on the argument values [args]. *)
Definition call (f : value) (args : list value) : res value :=
  match f with
  | VFunc name =>
      match arity name with
      | None => Beyond
      | Some (lo, hi) =>
          if ((lo <=? length args) && (length args <=? hi))%nat then
            match args with
            | v :: _ => call_builtin name v
            | [] => Beyond
            end
          else Raise TypeError
      end
  | VOther _ => Beyond
  | VInt _ | VFloat _ | VEmptyDict => Raise TypeError
  end.

(** [v.name], for the few attributes in the fragment. *)
Definition getattr (v : value) (name : str) : res value :=
  match v with
  | VInt n =>
      if str_eqb name "real" || str_eqb name "numerator" then Ok (VInt n)
      else if str_eqb name "imag" then Ok (VInt 0)
      else if str_eqb name "denominator" then Ok (VInt 1)
      else if str_eqb name "__class__" then Ok (VOther "<class 'int'>")
      else Beyond
  | VFloat x =>
      if str_eqb name "real" then Ok (VFloat x)
      else if str_eqb name "imag" then Ok (VFloat (S754_zero false))
      else if str_eqb name "__class__" then Ok (VOther "<class 'float'>")
      else Beyond
  | VFunc f =>
      if str_eqb name "__self__" && mem f ["abs"; "round"]
      then Ok (VOther "<module 'builtins' (built-in)>")
      else if str_eqb name "__class__"
      then Ok (VOther "<class 'builtin_function_or_method'>")
      else Beyond
  | VEmptyDict =>
      if str_eqb name "__class__" then Ok (VOther "<class 'dict'>") else Beyond
  | VOther _ => Beyond
  end.

Fixpoint eval_expr (globals locals : namespace) (a : expr) : res value :=
  match a with
  | EInt n => Ok (VInt n)
  | EFloat x => Ok (VFloat x)
  | EName s => load_name globals locals s
  | EUnary op a1 =>
      v <- eval_expr globals locals a1 ;; unary op v
  | EBin op a1 a2 =>
      v1 <- eval_expr globals locals a1 ;;
      v2 <- eval_expr globals locals a2 ;;
      binary op v1 v2
  | ECall f args =>
      fv <- eval_expr globals locals f ;;
      vs <- (fix eval_args (es : list expr) : res (list value) :=
               match es with
               | [] => Ok []
               | a1 :: es' =>
                   v <- eval_expr globals locals a1 ;;
                   vs <- eval_args es' ;;
                   Ok (v :: vs)
               end) args ;;
      call fv vs
  | EAttr a1 name =>
      v <- eval_expr globals locals a1 ;; getattr v name
  end.

(** [eval(source, globals, locals)] on the fragment. *)
Definition eval_fragment (source : str) (globals locals : namespace)
  : res value :=
  a <- parse source ;; eval_expr globals locals a.

Section Eval.

(** What [eval] does with a source outside the fragment. *)
Variable beyond : str -> namespace -> namespace -> outcome.

(** [eval(source, globals, locals)] *)
Definition eval (source : str) (globals locals : namespace) : outcome :=
  match eval_fragment source globals locals with
  | Ok v => Returns v
  | Raise e => Raises e
  | Beyond => beyond source globals locals
  end.

End Eval.

End Py.

(** ** The class [CalculatorLogic] *)

Record CalculatorLogic := {
  expression : str;
  history : list str
}.

(** [CalculatorLogic()] *)
Definition init : CalculatorLogic := {| expression := ""; history := [] |}.

(** [self.expression = s] *)
Definition set_expression (self : CalculatorLogic) (s : str) : CalculatorLogic :=
  {| expression := s; history := history self |}.

Definition clear (self : CalculatorLogic) : CalculatorLogic :=
  set_expression self "".

Definition backspace (self : CalculatorLogic) : CalculatorLogic :=
  match expression self with
  | [] => self
  | _ :: _ => set_expression self (Py.slice_to_last (expression self))
  end.

(** Normalized tokens for the internal expression. *)
Definition mapping : Py.dict str :=
  [("×", "*"); ("÷", "/"); ("^", "**"); ("π", "pi"); ("√", "sqrt(")].

Definition append_token (self : CalculatorLogic) (token : str)
  : CalculatorLogic :=
  let normalized := Py.dict_get_default mapping token token in
  set_expression self (expression self ++ normalized).

Definition invert (self : CalculatorLogic) : CalculatorLogic :=
  match expression self with
  | [] => self
  | _ :: _ => set_expression self ("1/(" ++ expression self ++ ")")
  end.

Definition get_display_value (self : CalculatorLogic) : str :=
  match expression self with
  | [] => "0"
  | _ :: _ => expression self
  end.

(** The names taken from module [math]. *)
Definition math_names : list str :=
  ["sin"; "cos"; "tan"; "sqrt"; "log"; "log10"; "exp"; "fabs"; "floor";
   "ceil"; "factorial"; "pow"; "pi"; "e"].

(** Allowed names from [math] plus a few builtins. *)
Definition allowed_names : Py.namespace :=
  Py.dict_update
    (fold_left (fun d name => Py.dict_set d name (Py.math_getattr name))
               math_names [])
    [("abs", Py.VFunc "abs"); ("round", Py.VFunc "round")].

(** The globals handed to [eval]: [{"__builtins__": {}}]. *)
Definition eval_globals : Py.namespace := [("__builtins__", Py.VEmptyDict)].

(** [history.append(record)], then [history.pop(0)] when the list has grown
    past 20 entries. *)
Definition record_to_history (h : list str) (record : str) : list str :=
  let h' := h ++ [record] in
  if (20 <? length h')%nat then tl h' else h'.

Section Methods.

(** The two parts of the runtime that are not reproduced: the decimal
    digits of Unicode outside ASCII, and [eval] outside the fragment. *)
Variable unicode_decimal : char -> option N.
Variable beyond : str -> Py.namespace -> Py.namespace -> Py.outcome.

Definition toggle_sign (self : CalculatorLogic) : CalculatorLogic :=
  match expression self with
  | [] => self
  | _ :: _ =>
      match Py.float_of_str unicode_decimal (expression self) with
      | Some value =>
          let value := Py.float_mul value Py.minus_one in
          (* Replace entire expression with toggled value *)
          set_expression self (Py.str_of_float value)
      | None =>
          (* For complex expressions, just prefix or remove leading minus *)
          if Py.startswith (expression self) "-"
          then set_expression self (Py.slice_from_1 (expression self))
          else set_expression self ("-" ++ expression self)
      end
  end.

(** Evaluate the current expression and return a string result, together
    with the object after the call. *)
Definition safe_eval (self : CalculatorLogic) : str * CalculatorLogic :=
  match expression self with
  | [] => ("0", self)
  | _ :: _ =>
      let raw_expr := expression self in
      let expr := Py.strip raw_expr in
      match Py.eval beyond expr eval_globals allowed_names with
      | Py.Raises exc =>
          if Py.is_ZeroDivisionError exc
          then ("Cannot divide by zero", set_expression self "")
          else
            (* Reset expression to avoid repeated errors *)
            ("Invalid expression", set_expression self "")
      | Py.Returns result =>
          (* Record to history on success *)
          let display_expr := raw_expr in
          let display_result := Py.str_of_value result in
          let h := record_to_history (history self)
                     (display_expr ++ " = " ++ display_result) in
          (* Replace expression with result for continued calculations *)
          (display_result, {| expression := display_result; history := h |})
      end
  end.

(** The public operations, as the presentation layer calls them. *)
Inductive operation :=
| Clear
| Backspace
| AppendToken (token : str)
| ToggleSign
| Invert
| SafeEval.

Definition step (self : CalculatorLogic) (op : operation) : CalculatorLogic :=
  match op with
  | Clear => clear self
  | Backspace => backspace self
  | AppendToken token => append_token self token
  | ToggleSign => toggle_sign self
  | Invert => invert self
  | SafeEval => snd (safe_eval self)
  end.

(** The object after a sequence of operations on a fresh one. *)
Definition run (ops : list operation) : CalculatorLogic :=
  fold_left step ops init.

End Methods.

(** Stand-ins for the two parts left open, for closed examples on ASCII
    text inside the fragment, where neither is consulted. *)
Definition no_decimal : char -> option N := fun _ => None.
Definition unsupported : str -> Py.namespace -> Py.namespace -> Py.outcome :=
  fun _ _ _ => Py.Raises (Py.OtherException "NotImplementedError").


(** The names that resolve in an evaluation: those of the allowlist, and
    the key of the globals. *)
Definition resolved_names : list str :=
  math_names ++ ["abs"; "round"; "__builtins__"].

(** ** The class [CalculatorApp]

    The part of the application that the event handlers read and write:
    the calculator, the two text variables behind the display, the items of
    the history list box, and the state of the scientific pad.  Widgets are
    kept by their content; the click sound of [_on_button_press] touches
    none of it. *)

(** [sub in s] for two strings: whether [sub] occurs in [s]. *)
Fixpoint str_contains (s sub : str) : bool :=
  Py.startswith s sub
  || match s with
     | [] => false
     | _ :: s' => str_contains s' sub
     end.

(** [l[-n:]]: the last [n] items of [l], or all of them. *)
Definition slice_last {A : Type} (n : nat) (l : list A) : list A :=
  skipn (length l - n) l.

Record CalculatorApp := {
  logic : CalculatorLogic;
  display_var : str;
  subdisplay_var : str;
  history_listbox : list str;
  scientific_visible : bool;
  scientific_frame_gridded : bool;
  mode_button_text : str
}.

(** The application as [__init__] leaves it. *)
Definition app_init : CalculatorApp :=
  {| logic := init;
     display_var := "0";
     subdisplay_var := "";
     history_listbox := [];
     scientific_visible := false;
     scientific_frame_gridded := false;
     mode_button_text := "Sci ▾" |}.

(** [self.logic = l; self.display_var.set(d)] *)
Definition set_logic_display (self : CalculatorApp) (l : CalculatorLogic)
  (d : str) : CalculatorApp :=
  {| logic := l;
     display_var := d;
     subdisplay_var := subdisplay_var self;
     history_listbox := history_listbox self;
     scientific_visible := scientific_visible self;
     scientific_frame_gridded := scientific_frame_gridded self;
     mode_button_text := mode_button_text self |}.

(** [self.display_var.get() in ("Invalid expression", "Cannot divide by zero")] *)
Definition shows_error (self : CalculatorApp) : bool :=
  Py.mem (display_var self) ["Invalid expression"; "Cannot divide by zero"].

(** A key event, by the two attributes the application reads. *)
Record key_event := {
  event_char : str;
  event_keysym : str
}.

(** The handlers that the basic buttons are bound to. *)
Inductive handler :=
| HandleClear
| HandleBackspace
| HandleInput
| HandleSignToggle
| HandleEquals.

(** The basic pad: text, style key, row, column, handler. *)
Definition button_specs : list (str * str * nat * nat * handler) :=
  [("C", "control", 0, 0, HandleClear);
   ("⌫", "control", 0, 1, HandleBackspace);
   ("%", "operator", 0, 2, HandleInput);
   ("/", "operator", 0, 3, HandleInput);
   ("7", "digit", 1, 0, HandleInput);
   ("8", "digit", 1, 1, HandleInput);
   ("9", "digit", 1, 2, HandleInput);
   ("*", "operator", 1, 3, HandleInput);
   ("4", "digit", 2, 0, HandleInput);
   ("5", "digit", 2, 1, HandleInput);
   ("6", "digit", 2, 2, HandleInput);
   ("-", "operator", 2, 3, HandleInput);
   ("1", "digit", 3, 0, HandleInput);
   ("2", "digit", 3, 1, HandleInput);
   ("3", "digit", 3, 2, HandleInput);
   ("+", "operator", 3, 3, HandleInput);
   ("±", "control", 4, 0, HandleSignToggle);
   ("0", "digit", 4, 1, HandleInput);
   (".", "digit", 4, 2, HandleInput);
   ("=", "accent", 4, 3, HandleEquals)]%nat.

(** The scientific pad: text, row, column; its style key is ["sci"]. *)
Definition sci_specs : list (str * nat * nat) :=
  [("sin", 0, 0); ("cos", 0, 1); ("tan", 0, 2); ("^", 0, 3);
   ("log", 1, 0); ("ln", 1, 1); ("√", 1, 2); ("(", 1, 3);
   ("π", 2, 0); ("e", 2, 1); (")", 2, 2); ("1/x", 2, 3)]%nat.

(** [_style_name_for_key]; [None] is [KeyError]. *)
Definition _style_name_for_key (key : str) : option str :=
  Py.dict_get
    [("digit", "Digit.TButton");
     ("operator", "Operator.TButton");
     ("control", "Control.TButton");
     ("accent", "Accent.TButton");
     ("sci", "Sci.TButton")]
    key.

Definition _handle_clear (self : CalculatorApp) : CalculatorApp :=
  {| logic := clear (logic self);
     display_var := "0";
     subdisplay_var := "";
     history_listbox := history_listbox self;
     scientific_visible := scientific_visible self;
     scientific_frame_gridded := scientific_frame_gridded self;
     mode_button_text := mode_button_text self |}.

Definition _handle_input (self : CalculatorApp) (token : str) : CalculatorApp :=
  let l := if shows_error self then clear (logic self) else logic self in
  let l := append_token l token in
  set_logic_display self l (get_display_value l).

Definition _handle_scientific_input (self : CalculatorApp) (token : str)
  : CalculatorApp :=
  let l :=
    if str_eqb token "1/x" then invert (logic self)
    else if str_eqb token "ln" then append_token (logic self) "log("
    else append_token (logic self) token in
  set_logic_display self l (get_display_value l).

Definition _handle_backspace (self : CalculatorApp) : CalculatorApp :=
  if shows_error self then _handle_clear self
  else
    let l := backspace (logic self) in
    set_logic_display self l (get_display_value l).

(** The list box shows the last eight records, the newest first. *)
Definition _refresh_history (self : CalculatorApp) : CalculatorApp :=
  {| logic := logic self;
     display_var := display_var self;
     subdisplay_var := subdisplay_var self;
     history_listbox := rev (slice_last 8 (history (logic self)));
     scientific_visible := scientific_visible self;
     scientific_frame_gridded := scientific_frame_gridded self;
     mode_button_text := mode_button_text self |}.

Definition toggle_scientific (self : CalculatorApp) : CalculatorApp :=
  let visible := negb (scientific_visible self) in
  {| logic := logic self;
     display_var := display_var self;
     subdisplay_var := subdisplay_var self;
     history_listbox := history_listbox self;
     scientific_visible := visible;
     scientific_frame_gridded := visible;
     mode_button_text := if visible then "Sci ▴" else "Sci ▾" |}.

Section Handlers.

Variable unicode_decimal : char -> option N.
Variable beyond : str -> Py.namespace -> Py.namespace -> Py.outcome.

Definition _handle_equals (self : CalculatorApp) : CalculatorApp :=
  let expr_before := get_display_value (logic self) in
  let (result, l) := safe_eval beyond (logic self) in
  _refresh_history
    {| logic := l;
       display_var := result;
       subdisplay_var := expr_before;
       history_listbox := history_listbox self;
       scientific_visible := scientific_visible self;
       scientific_frame_gridded := scientific_frame_gridded self;
       mode_button_text := mode_button_text self |}.

Definition _handle_sign_toggle (self : CalculatorApp) : CalculatorApp :=
  if shows_error self then self
  else
    let l := toggle_sign unicode_decimal (logic self) in
    set_logic_display self l (get_display_value l).

(** The call [h(t)] that a basic button is created with. *)
Definition call_handler (h : handler) (self : CalculatorApp) (token : str)
  : CalculatorApp :=
  match h with
  | HandleClear => _handle_clear self
  | HandleBackspace => _handle_backspace self
  | HandleInput => _handle_input self token
  | HandleSignToggle => _handle_sign_toggle self
  | HandleEquals => _handle_equals self
  end.

Definition _on_key_press (self : CalculatorApp) (event : key_event)
  : CalculatorApp :=
  let char := event_char event in
  let keysym := event_keysym event in
  if str_contains "0123456789.+-*/%()^" char then _handle_input self char
  else if Py.mem keysym ["Return"; "KP_Enter"] then _handle_equals self
  else if str_eqb keysym "BackSpace" then _handle_backspace self
  else if str_eqb keysym "Escape" then _handle_clear self
  else if Py.mem char ["c"; "C"] then _handle_clear self
  else self.

(** What the user can do: press the [i]-th button of a pad, press the
    mode button, or press a key. *)
Inductive gui_event :=
| BasicButton (i : nat)
| SciButton (i : nat)
| ModeButton
| KeyPress (event : key_event).

Definition app_step (self : CalculatorApp) (ev : gui_event) : CalculatorApp :=
  match ev with
  | BasicButton i =>
      match nth_error button_specs i with
      | Some (text, _, _, _, h) => call_handler h self text
      | None => self
      end
  | SciButton i =>
      match nth_error sci_specs i with
      | Some (text, _, _) => _handle_scientific_input self text
      | None => self
      end
  | ModeButton => toggle_scientific self
  | KeyPress event => _on_key_press self event
  end.

(** The application after a sequence of events on a fresh one. *)
Definition app_run (evs : list gui_event) : CalculatorApp :=
  fold_left app_step evs app_init.

End Handlers.


(** The canonical text that [append_token] appends for [token]. *)
Definition normalized (token : str) : str :=
  Py.dict_get_default mapping token token.

(** The cells of a grid of [rows] by [columns], row by row. *)
Definition grid_cells (rows columns : nat) : list (nat * nat) :=
  list_prod (seq 0 rows) (seq 0 columns).

(** What every handler keeps: a buffer that is not empty is on the display;
    the list box holds the last eight records, newest first; the mode
    button and the scientific pad agree with [scientific_visible]; the
    history holds at most 20 records. *)
Record app_invariant (self : CalculatorApp) : Prop := {
  inv_display :
    expression (logic self) = ""
    \/ display_var self = expression (logic self);
  inv_listbox :
    history_listbox self = rev (slice_last 8 (history (logic self)));
  inv_gridded :
    scientific_frame_gridded self = scientific_visible self;
  inv_mode_text :
    mode_button_text self
    = if scientific_visible self then "Sci ▴" else "Sci ▾";
  inv_history : (length (history (logic self)) <= 20)%nat
}.

(** The events that start an evaluation: the [=] button, and the keys
    [Return] and [KP_Enter] when their character is not an input. *)
Definition is_equals (ev : gui_event) : bool :=
  match ev with
  | BasicButton i => (i =? 19)%nat
  | KeyPress event =>
      negb (str_contains "0123456789.+-*/%()^" (event_char event))
      && Py.mem (event_keysym event) ["Return"; "KP_Enter"]
  | _ => false
  end.

Definition is_mode (ev : gui_event) : bool :=
  match ev with ModeButton => true | _ => false end.

(** What may follow a number: nothing, or a code point that continues
    neither the number nor a word. *)
Definition ends_number (rest : str) : Prop :=
  Py.span_digits rest = ("", rest)
  /\ Py.startswith rest "." = false
  /\ Py.startswith (map Py.lower rest) "e" = false
  /\ Py.continues_word rest = false.

(** The key of the digit [c], and the [Return] key. *)
Definition digit_key (c : char) : gui_event :=
  KeyPress {| event_char := [c]; event_keysym := [c] |}.

Definition return_key : gui_event :=
  KeyPress {| event_char := [13%N]; event_keysym := "Return" |}.

(** A fresh application in which [buffer] has been typed. *)
Definition typed (buffer : str) : CalculatorApp :=
  let l := {| expression := buffer; history := [] |} in
  set_logic_display app_init l (get_display_value l).

(** [sys.int_info.default_max_str_digits]: since CPython 3.11 the
    interpreter refuses, with an exception, to read or to write the decimal
    text of an integer with more digits than this. *)
Definition int_max_str_digits : nat := 4300.

(** The integers whose decimal text stays within that limit. *)
Definition has_text (n : Z) : Prop :=
  (length (Py.digits_of (Z.abs n)) <= int_max_str_digits)%nat.

(** The text and the token of a binary operator. *)
Definition operator_text (op : Py.binop) : str :=
  match op with
  | Py.Add => "+"
  | Py.Sub => "-"
  | Py.Mul => "*"
  | Py.Div => "/"
  | Py.FloorDiv => "//"
  | Py.Mod => "%"
  | Py.Pow => "**"
  end.

Definition operator_token (op : Py.binop) : Py.token :=
  match op with
  | Py.Add => Py.TPlus
  | Py.Sub => Py.TMinus
  | Py.Mul => Py.TStar
  | Py.Div => Py.TSlash
  | Py.FloorDiv => Py.TDoubleSlash
  | Py.Mod => Py.TPercent
  | Py.Pow => Py.TDoubleStar
  end.

(** ** Properties *)

(** *** The runtime on known values *)

Example float_of_str_tenth ud :
  Py.float_of_str ud " 1_0e-2 "
  = Some (S754_finite false 7205759403792794 (-56)).
Proof. reflexivity. Qed.

Example float_of_str_rejects ud :
  map (Py.float_of_str ud) ["-"; "- 4"; "--4"; "4+"; "1e"; "."; "0x10"; "1__0"]
  = repeat None 8.
Proof. reflexivity. Qed.

Example float_of_str_ties_to_even ud :
  Py.float_of_str ud "9007199254740993"
  = Some (S754_finite false 4503599627370496 1).
Proof. reflexivity. Qed.

Example str_of_float_pi_e :
  Py.str_of_float Py.math_pi = "3.141592653589793"
  /\ Py.str_of_float Py.math_e = "2.718281828459045".
Proof. split; vm_compute; reflexivity. Qed.

Example str_of_float_forms ud :
  map (fun s => option_map Py.str_of_float (Py.float_of_str ud s))
      ["100"; "1e15"; "1e16"; "20000000000000008"; "0.0001"; "0.00001";
       "5e-324"; "1.7976931348623157e308"; "1e400"; "-0"; "nan"]
  = map Some
      ["100.0"; "1000000000000000.0"; "1e+16"; "2.000000000000001e+16";
       "0.0001"; "1e-05"; "5e-324"; "1.7976931348623157e+308"; "inf"; "-0.0";
       "nan"].
Proof. vm_compute. reflexivity. Qed.

Example eval_fragment_values :
  map (fun s => Py.eval_fragment s eval_globals allowed_names)
      ["2+3*4"; "-2**2"; "2**3**2"; "-7//2"; "-7%2"; "1/3"; "0.1+0.2";
       "sqrt(16)"; "abs(-3)"; "factorial(5)"; "floor(-2.5)"; "(1).real"]
  = map (@Py.Ok _)
      [Py.VInt 14; Py.VInt (-4); Py.VInt 512; Py.VInt (-4); Py.VInt 1;
       Py.VFloat (S754_finite false 6004799503160661 (-54));
       Py.VFloat (S754_finite false 5404319552844596 (-54));
       Py.VFloat (S754_finite false 4503599627370496 (-50));
       Py.VInt 3; Py.VInt 120; Py.VInt (-3); Py.VInt 1].
Proof. vm_compute. reflexivity. Qed.

Example eval_fragment_raises :
  map (fun s => Py.eval_fragment s eval_globals allowed_names)
      ["5/0"; "5%0"; "1.5//0"; "0**-1"; "2+"; "(2"; "012"; "import os";
       "x"; "sin()"; "sin(1, 2)"; "sin(cos)"; "2(3)"; "sqrt(-1)";
       "10**400/1"]
  = map (@Py.Raise _)
      [Py.ZeroDivisionError; Py.ZeroDivisionError; Py.ZeroDivisionError;
       Py.ZeroDivisionError; Py.SyntaxError; Py.SyntaxError; Py.SyntaxError;
       Py.SyntaxError; Py.NameError; Py.TypeError; Py.TypeError;
       Py.TypeError; Py.TypeError; Py.ValueError; Py.OverflowError].
Proof. vm_compute. reflexivity. Qed.

Example eval_fragment_ends :
  map (fun s => Py.eval_fragment s eval_globals allowed_names)
      ["sin(1)"; "2**-1"; "(1, 2)"; "1 if 1 else x"; "'a'"; "[1]"; "2×3"]
  = repeat Py.Beyond 7.
Proof. vm_compute. reflexivity. Qed.

(** The keys typed as [√ 1 6 ) × 2 =], then [1/x] and [=]. *)
Example run_chain ud beyond :
  run ud beyond
    [AppendToken "√"; AppendToken "1"; AppendToken "6"; AppendToken ")";
     AppendToken "×"; AppendToken "2"; SafeEval; Invert; SafeEval]
  = {| expression := "0.125";
       history := ["sqrt(16)*2 = 8.0"; "1/(8.0) = 0.125"] |}.
Proof. reflexivity. Qed.

Example invert_then_eval beyond (h : list str) :
  fst (safe_eval beyond (invert {| expression := "4"; history := h |}))
  = "0.25".
Proof. reflexivity. Qed.

Example backspace_empty (h : list str) :
  backspace {| expression := ""; history := h |}
  = {| expression := ""; history := h |}
  /\ backspace {| expression := "2×"; history := h |}
     = {| expression := "2"; history := h |}.
Proof. split; reflexivity. Qed.

(** *** Equality of strings *)

Lemma str_eqb_eq (a b : str) : str_eqb a b = true <-> a = b.
Proof.
  revert b; induction a as [|x a IH]; intros [|y b]; simpl;
    try (split; [discriminate | congruence]); try tauto.
  unfold char_eqb. rewrite andb_true_iff, N.eqb_eq, IH.
  split; [intros [-> ->]; reflexivity | intros H; inversion H; auto].
Qed.

Lemma str_eqb_refl (a : str) : str_eqb a a = true.
Proof. apply str_eqb_eq; reflexivity. Qed.

Lemma str_eqb_neq (a b : str) : a <> b -> str_eqb a b = false.
Proof.
  intros H. destruct (str_eqb a b) eqn:E; [|reflexivity].
  apply str_eqb_eq in E. contradiction.
Qed.

(** *** The operations that leave the history alone *)

Lemma history_set_expression (self : CalculatorLogic) (s : str) :
  history (set_expression self s) = history self.
Proof. reflexivity. Qed.

Lemma history_clear (self : CalculatorLogic) :
  history (clear self) = history self.
Proof. reflexivity. Qed.

Lemma history_backspace (self : CalculatorLogic) :
  history (backspace self) = history self.
Proof. unfold backspace. destruct (expression self); reflexivity. Qed.

Lemma history_append_token (self : CalculatorLogic) (token : str) :
  history (append_token self token) = history self.
Proof. reflexivity. Qed.

Lemma history_invert (self : CalculatorLogic) :
  history (invert self) = history self.
Proof. unfold invert. destruct (expression self); reflexivity. Qed.

Lemma history_toggle_sign ud (self : CalculatorLogic) :
  history (toggle_sign ud self) = history self.
Proof.
  unfold toggle_sign. destruct (expression self); [reflexivity|].
  destruct (Py.float_of_str ud _); [reflexivity|].
  destruct (Py.startswith _ _); reflexivity.
Qed.

(** *** Token normalizer *)

(** C7. [append_token] replaces each of the five glyphs by its canonical
    text ([×] by [*], [÷] by [/], [^] by [**], [π] by [pi], [√] by [sqrt(])
    and appends any other token as it is; the history is not touched. *)
Theorem append_token_substitutes (self : CalculatorLogic) (token : str) :
  history (append_token self token) = history self
  /\ expression (append_token self "×") = expression self ++ "*"
  /\ expression (append_token self "÷") = expression self ++ "/"
  /\ expression (append_token self "^") = expression self ++ "**"
  /\ expression (append_token self "π") = expression self ++ "pi"
  /\ expression (append_token self "√") = expression self ++ "sqrt("
  /\ (~ In token ["×"; "÷"; "^"; "π"; "√"] ->
      expression (append_token self token) = expression self ++ token).
Proof.
  repeat split.
  intros H. unfold append_token, Py.dict_get_default, mapping.
  cbn [Py.dict_get expression set_expression].
  repeat match goal with
         | |- context [str_eqb ?k token] =>
             rewrite (@str_eqb_neq k token)
               by (intros E; apply H; rewrite <- E; simpl; tauto)
         end.
  reflexivity.
Qed.

Lemma append_token_substitutes_witness :
  expression (append_token {| expression := "2"; history := ["1+1 = 2"] |} "+")
  = "2+".
Proof.
  apply (proj2 (proj2 (proj2 (proj2 (proj2 (proj2
    (append_token_substitutes
       {| expression := "2"; history := ["1+1 = 2"] |} "+"))))))).
  simpl. intros H.
  repeat (destruct H as [H|H]; [discriminate H|]). exact H.
Defined.

(** *** Evaluation of the empty buffer *)

(** C8. [safe_eval] on the empty buffer returns ["0"]; the buffer stays
    empty and the history is the same. *)
Theorem safe_eval_empty beyond (h : list str) :
  safe_eval beyond {| expression := ""; history := h |}
  = ("0", {| expression := ""; history := h |}).
Proof. reflexivity. Qed.

(** *** Only evaluation writes the history *)

(** C9. [append_token], [toggle_sign], [invert], [backspace] and [clear]
    leave the history as it is, whatever the buffer and the history are;
    [safe_eval] does write it. *)
Theorem only_safe_eval_writes_history ud beyond
  (self : CalculatorLogic) (token : str) :
  history (append_token self token) = history self
  /\ history (toggle_sign ud self) = history self
  /\ history (invert self) = history self
  /\ history (backspace self) = history self
  /\ history (clear self) = history self
  /\ history (snd (safe_eval beyond {| expression := "2+3"; history := [] |}))
     = ["2+3 = 5"].
Proof.
  repeat split;
    auto using history_toggle_sign, history_invert, history_backspace.
Qed.

(** *** The history log *)

Lemma record_to_history_spec (h : list str) (r : str) :
  record_to_history h r
  = if (length h <? 20)%nat then h ++ [r] else tl (h ++ [r]).
Proof.
  unfold record_to_history. rewrite length_app, Nat.add_1_r.
  destruct (Nat.ltb_spec (length h) 20) as [H|H];
    destruct (Nat.ltb_spec 20 (S (length h))) as [H'|H'];
    try reflexivity; lia.
Qed.

Lemma record_to_history_length (h : list str) (r : str) :
  (length h <= 20)%nat -> (length (record_to_history h r) <= 20)%nat.
Proof.
  intros H. rewrite record_to_history_spec.
  destruct (Nat.ltb_spec (length h) 20) as [H'|H'].
  - rewrite length_app. simpl. lia.
  - destruct h as [|x h]; simpl in *; [lia|].
    rewrite length_app. simpl. lia.
Qed.


(** What [safe_eval] does, by the outcome of [eval]. *)
Lemma safe_eval_cases beyond (self : CalculatorLogic) :
  expression self <> "" ->
  safe_eval beyond self
  = match Py.eval beyond (Py.strip (expression self))
            eval_globals allowed_names with
    | Py.Raises exc =>
        (if Py.is_ZeroDivisionError exc then "Cannot divide by zero"
         else "Invalid expression",
         {| expression := ""; history := history self |})
    | Py.Returns v =>
        (Py.str_of_value v,
         {| expression := Py.str_of_value v;
            history := record_to_history (history self)
                         (expression self ++ " = " ++ Py.str_of_value v) |})
    end.
Proof.
  intros H. unfold safe_eval. destruct (expression self) as [|c s] eqn:E.
  - contradiction.
  - destruct (Py.eval _ _ _ _) as [v|exc]; [reflexivity|].
    destruct (Py.is_ZeroDivisionError exc); reflexivity.
Qed.

Lemma history_safe_eval beyond (self : CalculatorLogic) :
  history (snd (safe_eval beyond self)) = history self
  \/ exists r, history (snd (safe_eval beyond self))
               = record_to_history (history self) r.
Proof.
  destruct (expression self) as [|c s] eqn:E.
  - left. unfold safe_eval. rewrite E. reflexivity.
  - rewrite safe_eval_cases by (rewrite E; discriminate).
    destruct (Py.eval _ _ _ _) as [v|exc]; simpl; eauto.
Qed.






(** *** The outcomes of an evaluation *)





(** *** Signs and [float] *)

Lemma drop_while_snoc (p : char -> bool) (l : str) (c : char) :
  p c = false -> Py.drop_while p (l ++ [c]) = Py.drop_while p l ++ [c].
Proof.
  intros H. induction l as [|x l IH]; simpl.
  - rewrite H. reflexivity.
  - destruct (p x); [exact IH | reflexivity].
Qed.

Lemma drop_while_end_cons (p : char -> bool) (c : char) (a : str) :
  p c = false ->
  Py.drop_while_end p (c :: a) = c :: Py.drop_while_end p a.
Proof.
  intros H. unfold Py.drop_while_end. simpl rev.
  rewrite drop_while_snoc by exact H. rewrite rev_app_distr. reflexivity.
Qed.

Lemma drop_while_suffix (p : char -> bool) (l : str) :
  exists r, l = r ++ Py.drop_while p l.
Proof.
  induction l as [|x l [r IH]]; simpl.
  - exists []. reflexivity.
  - destruct (p x).
    + exists (x :: r). simpl. congruence.
    + exists []. reflexivity.
Qed.

Lemma drop_while_end_prefix (p : char -> bool) (a : str) :
  exists r, a = Py.drop_while_end p a ++ r.
Proof.
  unfold Py.drop_while_end.
  destruct (drop_while_suffix p (rev a)) as [r E].
  exists (rev r). rewrite <- rev_app_distr, <- E, rev_involutive. reflexivity.
Qed.

Lemma startswith_minus (s : str) :
  Py.startswith s "-" = true <-> exists t, s = "-" ++ t.
Proof.
  destruct s as [|c s]; cbn [Py.startswith].
  - split; [discriminate | intros [t E]; discriminate E].
  - rewrite andb_true_r. unfold char_eqb. rewrite N.eqb_eq. split.
    + intros ->. exists s. reflexivity.
    + intros [t E]. inversion E. reflexivity.
Qed.

Lemma starts_number_plain (c : char) :
  Py.starts_number c = true ->
  Py.is_ascii_space c = false /\ char_eqb c (chr "-") = false
  /\ char_eqb c (chr "+") = false /\ char_eqb c (chr "_") = false.
Proof.
  unfold Py.starts_number, Py.is_digit, Py.is_ascii_space, Py.lower, char_eqb, chr.
  simpl hd. intros H.
  repeat rewrite ?orb_true_iff, ?andb_true_iff, ?N.eqb_eq, ?N.leb_le in H.
  repeat split;
    repeat rewrite ?orb_false_iff, ?andb_false_iff, ?N.eqb_neq, ?N.leb_gt;
    destruct ((65 <=? c)%N && (c <=? 90)%N) eqn:U;
    repeat rewrite ?andb_true_iff, ?andb_false_iff, ?N.leb_le, ?N.leb_gt in U;
    lia.
Qed.

Lemma parse_unsigned_sign (n1 n2 : bool) (s : str) :
  Py.parse_unsigned n1 s = None -> Py.parse_unsigned n2 s = None.
Proof.
  unfold Py.parse_unsigned.
  destruct (Py.parse_numeral s) as [[m x]|]; [discriminate|].
  destruct (str_eqb _ _ || str_eqb _ _); [discriminate|].
  destruct (str_eqb _ _); [discriminate | reflexivity].
Qed.

Lemma parse_unsigned_head (neg : bool) (c : char) (s : str) :
  Py.starts_number c = false -> Py.parse_unsigned neg (c :: s) = None.
Proof.
  unfold Py.starts_number, chr. cbn [hd]. intros H.
  repeat (apply orb_false_iff in H; destruct H as [H ?]).
  unfold Py.parse_unsigned, Py.parse_numeral.
  cbn [Py.span_digits]. rewrite H.
  cbn [Py.startswith]. rewrite H2.
  cbn [andb app map str_eqb]. rewrite H1, H0. reflexivity.
Qed.

(** A text that [float] rejects is still rejected with a minus sign put
    before it. *)
Lemma float_of_str_minus ud (s : str) :
  Py.float_of_str ud s = None -> Py.float_of_str ud ("-" ++ s) = None.
Proof.
  unfold Py.float_of_str. intros H.
  change (Py.to_ascii ud ("-" ++ s)) with (chr "-" :: Py.to_ascii ud s).
  generalize dependent (Py.to_ascii ud s). intros a H.
  change (Py.drop_while Py.is_ascii_space (chr "-" :: a)) with (chr "-" :: a).
  rewrite drop_while_end_cons by reflexivity.
  destruct (drop_while_end_prefix Py.is_ascii_space a) as [rest Ea].
  destruct (Py.drop_while_end Py.is_ascii_space a) as [|c R] eqn:ER.
  - reflexivity.
  - cbn [Py.drop_underscores].
    change (char_eqb (chr "-") (chr "_")) with false.
    change (char_eqb 0%N (chr "_")) with false.
    change (Py.is_digit (chr "-")) with false.
    cbn [andb].
    destruct (char_eqb c (chr "_")) eqn:Ec; [reflexivity|].
    destruct (Py.drop_underscores c R) as [U|] eqn:EU; [|reflexivity].
    cbn [option_map]. change (Py.take_sign (chr "-" :: c :: U)) with (true, c :: U).
    destruct (Py.starts_number c) eqn:Hc;
      [|apply parse_unsigned_head; exact Hc].
    apply starts_number_plain in Hc. destruct Hc as (Hsp & Hm & Hp & _).
    rewrite Ea in H. simpl app in H. cbn [Py.drop_while] in H.
    rewrite Hsp in H. change (c :: R ++ rest) with ((c :: R) ++ rest) in H.
    rewrite <- Ea, ER in H.
    cbn [Py.drop_underscores] in H.
    change (char_eqb 0%N (chr "_")) with false in H.
    rewrite Ec in H. cbn [andb] in H. rewrite EU in H. cbn [option_map] in H.
    unfold Py.take_sign in H. cbn [Py.startswith] in H.
    change (chr "-") with 45%N in Hm. change (chr "+") with 43%N in Hp.
    rewrite Hm, Hp in H. cbn [andb] in H.
    apply parse_unsigned_sign with (n1 := false). exact H.
Qed.


(** *** Sign toggle *)

Lemma toggle_sign_cases ud (self : CalculatorLogic) :
  expression self <> "" ->
  toggle_sign ud self
  = match Py.float_of_str ud (expression self) with
    | Some x =>
        set_expression self (Py.str_of_float (Py.float_mul x Py.minus_one))
    | None =>
        if Py.startswith (expression self) "-"
        then set_expression self (tl (expression self))
        else set_expression self ("-" ++ expression self)
    end.
Proof.
  intros H. unfold toggle_sign.
  destruct (expression self); [contradiction | reflexivity].
Qed.

(** C6. [toggle_sign] leaves an empty buffer as it is.  A buffer that
    [float] accepts is replaced by [str] of its value times [-1].  On any
    other buffer a leading ["-"] is removed when there is one, and one is
    put in front otherwise.  On ["4"] the first call gives ["-4.0"] and the
    second ["4.0"], which [float] reads as the same number as ["4"]. *)
Theorem toggle_sign_spec ud :
  (forall h,
      toggle_sign ud {| expression := ""; history := h |}
      = {| expression := ""; history := h |})
  /\ (forall self x,
        expression self <> "" ->
        Py.float_of_str ud (expression self) = Some x ->
        toggle_sign ud self
        = {| expression := Py.str_of_float (Py.float_mul x Py.minus_one);
             history := history self |})
  /\ (forall self t,
        Py.float_of_str ud (expression self) = None ->
        expression self = "-" ++ t ->
        toggle_sign ud self = {| expression := t; history := history self |})
  /\ (forall self,
        expression self <> "" ->
        Py.float_of_str ud (expression self) = None ->
        (forall t, expression self <> "-" ++ t) ->
        toggle_sign ud self
        = {| expression := "-" ++ expression self; history := history self |})
  /\ (forall h,
        toggle_sign ud {| expression := "4"; history := h |}
        = {| expression := "-4.0"; history := h |}
        /\ toggle_sign ud {| expression := "-4.0"; history := h |}
           = {| expression := "4.0"; history := h |}
        /\ Py.float_of_str ud "4.0" = Py.float_of_str ud "4").
Proof.
  repeat split.
  - intros self x Hne Hx. rewrite toggle_sign_cases, Hx by assumption.
    reflexivity.
  - intros self t Hx Et. rewrite toggle_sign_cases by (rewrite Et; discriminate).
    rewrite Hx, Et. reflexivity.
  - intros self Hne Hx Hm. rewrite toggle_sign_cases, Hx by assumption.
    destruct (Py.startswith (expression self) "-") eqn:E; [|reflexivity].
    apply startswith_minus in E. destruct E as [t E].
    exfalso. exact (Hm t E).
Qed.

Lemma toggle_sign_spec_witness :
  toggle_sign no_decimal {| expression := "2.5"; history := ["5/2 = 2.5"] |}
  = {| expression := "-2.5"; history := ["5/2 = 2.5"] |}
  /\ toggle_sign no_decimal {| expression := "-(2+3)"; history := [] |}
     = {| expression := "(2+3)"; history := [] |}
  /\ toggle_sign no_decimal {| expression := "2+3"; history := [] |}
     = {| expression := "-2+3"; history := [] |}.
Proof.
  split; [|split].
  - apply (proj1 (proj2 (toggle_sign_spec no_decimal))
             {| expression := "2.5"; history := ["5/2 = 2.5"] |}
             (S754_finite false 5629499534213120 (-51))).
    + discriminate.
    + reflexivity.
  - apply (proj1 (proj2 (proj2 (toggle_sign_spec no_decimal)))
             {| expression := "-(2+3)"; history := [] |} "(2+3)");
      reflexivity.
  - apply (proj1 (proj2 (proj2 (proj2 (toggle_sign_spec no_decimal))))
             {| expression := "2+3"; history := [] |}).
    + discriminate.
    + reflexivity.
    + intros t. discriminate.
Defined.

(** C10, as the code has it.  On a non-empty buffer that [float] rejects,
    two calls of [toggle_sign] give the buffer back when it does not start
    with ["-"], and also when what follows its leading ["-"] is not empty,
    is rejected by [float] and does not itself start with ["-"]. *)
Theorem toggle_sign_twice ud (self : CalculatorLogic) :
  expression self <> "" ->
  Py.float_of_str ud (expression self) = None ->
  Py.startswith (expression self) "-" = false
  \/ (tl (expression self) <> ""
      /\ Py.float_of_str ud (tl (expression self)) = None
      /\ Py.startswith (tl (expression self)) "-" = false) ->
  toggle_sign ud (toggle_sign ud self) = self.
Proof.
  intros Hne Hx Hcases. destruct self as [e h].
  cbn [expression] in *.
  rewrite (toggle_sign_cases ud {| expression := e; history := h |})
    by exact Hne.
  cbn [expression history set_expression]. rewrite Hx.
  assert (Hback :
    toggle_sign ud {| expression := "-" ++ e; history := h |}
    = {| expression := e; history := h |}).
  { rewrite toggle_sign_cases by discriminate.
    cbn [expression history set_expression].
    rewrite (float_of_str_minus ud e Hx). reflexivity. }
  destruct Hcases as [Hm | (Hne' & Hx' & Hm')].
  - rewrite Hm. exact Hback.
  - destruct (Py.startswith e "-") eqn:Hm; [|exact Hback].
    apply startswith_minus in Hm. destruct Hm as [t ->].
    change (tl ("-" ++ t)) with t in *.
    rewrite toggle_sign_cases by exact Hne'.
    cbn [expression history set_expression].
    rewrite Hx', Hm'. reflexivity.
Qed.

Lemma toggle_sign_twice_witness :
  toggle_sign no_decimal
    (toggle_sign no_decimal {| expression := "2+3"; history := ["1+1 = 2"] |})
  = {| expression := "2+3"; history := ["1+1 = 2"] |}
  /\ toggle_sign no_decimal
       (toggle_sign no_decimal {| expression := "-(2+3)"; history := [] |})
     = {| expression := "-(2+3)"; history := [] |}.
Proof.
  split.
  - apply (toggle_sign_twice no_decimal
             {| expression := "2+3"; history := ["1+1 = 2"] |}).
    + discriminate.
    + reflexivity.
    + left. reflexivity.
  - apply (toggle_sign_twice no_decimal
             {| expression := "-(2+3)"; history := [] |}).
    + discriminate.
    + reflexivity.
    + right. repeat split. discriminate.
Defined.

(** The buffer ["-"] is not empty and [float] rejects it, but two calls of
    [toggle_sign] leave the empty buffer; on ["--pi"] they leave ["pi"]. *)
Lemma toggle_sign_twice_counterexample :
  Py.float_of_str no_decimal "-" = None
  /\ toggle_sign no_decimal
       (toggle_sign no_decimal {| expression := "-"; history := [] |})
     = {| expression := ""; history := [] |}
  /\ Py.float_of_str no_decimal "--pi" = None
  /\ toggle_sign no_decimal
       (toggle_sign no_decimal {| expression := "--pi"; history := [] |})
     = {| expression := "pi"; history := [] |}.
Proof. repeat split; vm_compute; reflexivity. Qed.

(** *** The namespace of the evaluation *)

Lemma allowed_names_eq :
  allowed_names
  = [("sin", Py.VFunc "sin"); ("cos", Py.VFunc "cos"); ("tan", Py.VFunc "tan");
     ("sqrt", Py.VFunc "sqrt"); ("log", Py.VFunc "log");
     ("log10", Py.VFunc "log10"); ("exp", Py.VFunc "exp");
     ("fabs", Py.VFunc "fabs"); ("floor", Py.VFunc "floor");
     ("ceil", Py.VFunc "ceil"); ("factorial", Py.VFunc "factorial");
     ("pow", Py.VFunc "pow"); ("pi", Py.VFloat Py.math_pi); ("e", Py.VFloat Py.math_e);
     ("abs", Py.VFunc "abs"); ("round", Py.VFunc "round")].
Proof. reflexivity. Qed.

Ltac split_names H :=
  repeat match type of H with
         | _ \/ _ => destruct H as [H|H]
         end.

(** A name resolves exactly when it is one of [resolved_names]: the sixteen
    names of the allowlist, and ["__builtins__"], the key of the globals. *)
Lemma load_name_resolves (name : str) :
  (In name resolved_names ->
   exists v, Py.load_name eval_globals allowed_names name = Py.Ok v)
  /\ (~ In name resolved_names ->
      Py.load_name eval_globals allowed_names name = Py.Raise Py.NameError).
Proof.
  split.
  - intros H. simpl in H. split_names H; try contradiction; subst name;
      eexists; vm_compute; reflexivity.
  - intros H. unfold Py.load_name. rewrite allowed_names_eq.
    unfold eval_globals. cbn [Py.dict_get].
    repeat match goal with
           | |- context [str_eqb ?k name] =>
               rewrite (@str_eqb_neq k name)
                 by (intros E; apply H; rewrite <- E; simpl; tauto)
           end.
    reflexivity.
Qed.

(** C1, at its failing inputs.  The name [__builtins__], which is not on
    the allowlist, resolves to the empty dictionary of the globals; and an
    attribute reference is evaluated as any other expression: [abs.__self__]
    is the module [builtins] of the interpreter, [(1).__class__] the class
    [int].  Each of these buffers is a successful evaluation, with a record
    in the history, and none yields ["Invalid expression"]. *)
Theorem eval_leaves_allowlist beyond (h : list str) :
  Py.load_name eval_globals allowed_names "__builtins__" = Py.Ok Py.VEmptyDict
  /\ safe_eval beyond {| expression := "__builtins__"; history := h |}
     = ("{}", {| expression := "{}";
                 history := record_to_history h "__builtins__ = {}" |})
  /\ safe_eval beyond {| expression := "abs.__self__"; history := h |}
     = ("<module 'builtins' (built-in)>",
        {| expression := "<module 'builtins' (built-in)>";
           history := record_to_history h
                        "abs.__self__ = <module 'builtins' (built-in)>" |})
  /\ safe_eval beyond {| expression := "(1).__class__"; history := h |}
     = ("<class 'int'>",
        {| expression := "<class 'int'>";
           history := record_to_history h "(1).__class__ = <class 'int'>" |}).
Proof. repeat split. Qed.




(** ** Further properties of [CalculatorLogic] *)

(** *** Backspace after a key *)

(** [backspace] removes one code point, not one token: after
    [append_token] it takes away the last code point of the canonical text.
    So it undoes a token whose canonical text is one code point, and after
    [^] it leaves one [*] of the [**]. *)
Theorem backspace_append_token (self : CalculatorLogic) (token : str) :
  (normalized token <> "" ->
   backspace (append_token self token)
   = set_expression self (expression self ++ removelast (normalized token)))
  /\ (length (normalized token) = 1%nat ->
      backspace (append_token self token) = self)
  /\ backspace (append_token self "^") = append_token self "*".
Proof.
  assert (H : normalized token <> "" ->
    backspace (append_token self token)
    = set_expression self (expression self ++ removelast (normalized token))).
  { intros Hne. unfold backspace, append_token. fold (normalized token).
    cbn [expression set_expression history].
    destruct (expression self ++ normalized token) eqn:E.
    - apply app_eq_nil in E. destruct E as [_ E]. contradiction.
    - rewrite <- E. unfold Py.slice_to_last.
      rewrite removelast_app by exact Hne. reflexivity. }
  split; [exact H|]. split.
  - intros Hlen. rewrite H.
    + destruct (normalized token) as [|c [|c' t]]; try discriminate Hlen.
      cbn [removelast]. rewrite app_nil_r. destruct self; reflexivity.
    + intros E. rewrite E in Hlen. discriminate Hlen.
  - unfold backspace, append_token, Py.dict_get_default.
    change (Py.dict_get mapping "^") with (Some "**").
    change (Py.dict_get mapping "*") with (@None str).
    cbn [expression set_expression history].
    destruct (expression self ++ "**") eqn:E.
    + apply app_eq_nil in E. destruct E as [_ E]. discriminate E.
    + rewrite <- E. unfold Py.slice_to_last.
      rewrite removelast_app by discriminate. reflexivity.
Qed.

Lemma backspace_append_token_witness :
  backspace (append_token {| expression := "2"; history := [] |} "√")
  = {| expression := "2sqrt"; history := [] |}
  /\ backspace (append_token {| expression := "2"; history := [] |} "×")
     = {| expression := "2"; history := [] |}.
Proof.
  split.
  - apply (proj1 (backspace_append_token
                    {| expression := "2"; history := [] |} "√")).
    discriminate.
  - apply (proj1 (proj2 (backspace_append_token
                           {| expression := "2"; history := [] |} "×"))).
    reflexivity.
Defined.

(** *** What an evaluation leaves in the buffer *)

Lemma buffer_cases (self : CalculatorLogic) :
  expression self = "" \/ expression self <> "".
Proof. destruct (expression self); [left; reflexivity | right; discriminate]. Qed.

Lemma safe_eval_empty_buffer beyond (self : CalculatorLogic) :
  expression self = "" -> safe_eval beyond self = ("0", self).
Proof. intros H. unfold safe_eval. rewrite H. reflexivity. Qed.

Lemma safe_eval_sync beyond (self : CalculatorLogic) :
  expression (snd (safe_eval beyond self)) = ""
  \/ expression (snd (safe_eval beyond self)) = fst (safe_eval beyond self).
Proof.
  destruct (buffer_cases self) as [E|E].
  - left. rewrite safe_eval_empty_buffer by exact E. exact E.
  - rewrite safe_eval_cases by exact E.
    destruct (Py.eval _ _ _ _) as [v|exc]; [right | left]; reflexivity.
Qed.


(** *** A buffer of blanks *)

Lemma drop_while_all (p : char -> bool) (s : str) :
  forallb p s = true -> Py.drop_while p s = "".
Proof.
  induction s as [|c s IH]; simpl; [reflexivity|].
  destruct (p c); simpl; [exact IH | discriminate].
Qed.

(** A buffer that is not empty but holds only whitespace is not read as
    the empty buffer: [safe_eval] answers ["Invalid expression"], not
    ["0"], and empties it. *)
Theorem safe_eval_blank beyond (self : CalculatorLogic) :
  expression self <> "" ->
  forallb Py.is_space (expression self) = true ->
  safe_eval beyond self
  = ("Invalid expression", {| expression := ""; history := history self |}).
Proof.
  intros Hne Hsp. rewrite safe_eval_cases by exact Hne.
  unfold Py.strip. rewrite drop_while_all by exact Hsp. reflexivity.
Qed.

Lemma safe_eval_blank_witness :
  safe_eval unsupported {| expression := "  "; history := ["2+3 = 5"] |}
  = ("Invalid expression", {| expression := ""; history := ["2+3 = 5"] |}).
Proof.
  apply (safe_eval_blank unsupported
           {| expression := "  "; history := ["2+3 = 5"] |}).
  - discriminate.
  - reflexivity.
Defined.

(** *** The records of the history *)





(** *** When the sign toggle empties the buffer *)

Lemma format_repr_nonempty (ds : str) (p : Z) : Py.format_repr ds p <> "".
Proof.
  unfold Py.format_repr.
  destruct ((p <=? -4)%Z || (16 <? p)%Z).
  - intros E. apply app_eq_nil in E. destruct E as [_ E].
    apply app_eq_nil in E. destruct E as [_ E]. discriminate E.
  - destruct (p <=? 0)%Z; [discriminate|].
    destruct (p <? Z.of_nat (length ds))%Z.
    + intros E. apply app_eq_nil in E. destruct E as [_ E]. discriminate E.
    + intros E. apply app_eq_nil in E. destruct E as [_ E].
      apply app_eq_nil in E. destruct E as [_ E]. discriminate E.
Qed.

Lemma str_of_float_nonempty (x : Py.float) : Py.str_of_float x <> "".
Proof.
  destruct x as [s|s| |s m e]; simpl.
  - destruct s; discriminate.
  - destruct s; discriminate.
  - discriminate.
  - destruct (Py.shortest m e) as [ds p].
    intros E. apply app_eq_nil in E. destruct E as [_ E].
    exact (format_repr_nonempty _ _ E).
Qed.

(** [toggle_sign] leaves an empty buffer only when the buffer was empty or
    was the lone sign ["-"]; in every other case something is left to
    evaluate. *)
Theorem toggle_sign_empties ud (self : CalculatorLogic) :
  expression (toggle_sign ud self) = ""
  <-> expression self = "" \/ expression self = "-".
Proof.
  split.
  - intros H. destruct (buffer_cases self) as [E|E]; [left; exact E|].
    right. rewrite toggle_sign_cases in H by exact E.
    destruct (Py.float_of_str ud (expression self)) as [x|].
    + exfalso. exact (str_of_float_nonempty _ H).
    + destruct (Py.startswith (expression self) "-") eqn:Hm.
      * apply startswith_minus in Hm. destruct Hm as [t Ht].
        rewrite Ht in *. cbn [expression set_expression tl app] in H.
        rewrite H. reflexivity.
      * discriminate H.
  - intros [E|E].
    + unfold toggle_sign. rewrite E. exact E.
    + unfold toggle_sign. rewrite E. reflexivity.
Qed.

(** ** Properties of [CalculatorApp] *)

Lemma get_display_value_sync (l : CalculatorLogic) :
  expression l = "" \/ get_display_value l = expression l.
Proof.
  unfold get_display_value. destruct (expression l); [left|right]; reflexivity.
Qed.

(** A handler that works on the calculator alone, through an operation that
    keeps the history, and then shows [get_display_value]. *)
Lemma set_logic_display_invariant (self : CalculatorApp) (l : CalculatorLogic) :
  history l = history (logic self) ->
  app_invariant self ->
  app_invariant (set_logic_display self l (get_display_value l)).
Proof.
  intros Hh [Hd Hl Hg Hm Hb].
  split; cbn [set_logic_display logic display_var history_listbox
              scientific_frame_gridded scientific_visible mode_button_text];
    try assumption.
  - apply get_display_value_sync.
  - rewrite Hh. exact Hl.
  - rewrite Hh. exact Hb.
Qed.

Lemma handle_clear_invariant (self : CalculatorApp) :
  app_invariant self -> app_invariant (_handle_clear self).
Proof.
  intros [Hd Hl Hg Hm Hb]. split; simpl; auto.
Qed.

Lemma handle_input_invariant (self : CalculatorApp) (token : str) :
  app_invariant self -> app_invariant (_handle_input self token).
Proof.
  intros H. unfold _handle_input.
  apply set_logic_display_invariant; [|exact H].
  destruct (shows_error self); reflexivity.
Qed.

Lemma handle_scientific_input_invariant (self : CalculatorApp) (token : str) :
  app_invariant self -> app_invariant (_handle_scientific_input self token).
Proof.
  intros H. unfold _handle_scientific_input.
  apply set_logic_display_invariant; [|exact H].
  destruct (str_eqb token "1/x"); [apply history_invert|].
  destruct (str_eqb token "ln"); reflexivity.
Qed.

Lemma handle_backspace_invariant (self : CalculatorApp) :
  app_invariant self -> app_invariant (_handle_backspace self).
Proof.
  intros H. unfold _handle_backspace.
  destruct (shows_error self); [apply handle_clear_invariant, H|].
  apply set_logic_display_invariant; [apply history_backspace | exact H].
Qed.

Lemma handle_sign_toggle_invariant ud (self : CalculatorApp) :
  app_invariant self -> app_invariant (_handle_sign_toggle ud self).
Proof.
  intros H. unfold _handle_sign_toggle.
  destruct (shows_error self); [exact H|].
  apply set_logic_display_invariant; [apply history_toggle_sign | exact H].
Qed.

Lemma safe_eval_bounded beyond (l : CalculatorLogic) :
  (length (history l) <= 20)%nat ->
  (length (history (snd (safe_eval beyond l))) <= 20)%nat.
Proof.
  intros H. destruct (history_safe_eval beyond l) as [E|[r E]]; rewrite E;
    auto using record_to_history_length.
Qed.

Lemma handle_equals_invariant beyond (self : CalculatorApp) :
  app_invariant self -> app_invariant (_handle_equals beyond self).
Proof.
  intros [Hd Hl Hg Hm Hb]. unfold _handle_equals.
  pose proof (safe_eval_sync beyond (logic self)) as Hbuf.
  pose proof (safe_eval_bounded beyond (logic self) Hb) as Hlen.
  destruct (safe_eval beyond (logic self)) as [result l].
  split; simpl in *; auto.
  destruct Hbuf as [E|E]; auto.
Qed.

Lemma toggle_scientific_invariant (self : CalculatorApp) :
  app_invariant self -> app_invariant (toggle_scientific self).
Proof.
  intros [Hd Hl Hg Hm Hb]. split; simpl; auto.
Qed.

Lemma call_handler_invariant ud beyond (h : handler) (self : CalculatorApp)
  (token : str) :
  app_invariant self -> app_invariant (call_handler ud beyond h self token).
Proof.
  destruct h; simpl;
    auto using handle_clear_invariant, handle_backspace_invariant,
      handle_input_invariant, handle_sign_toggle_invariant,
      handle_equals_invariant.
Qed.

Lemma on_key_press_invariant beyond (self : CalculatorApp)
  (event : key_event) :
  app_invariant self -> app_invariant (_on_key_press beyond self event).
Proof.
  intros H. unfold _on_key_press.
  repeat match goal with
         | |- app_invariant (if ?b then _ else _) => destruct b
         end;
    auto using handle_clear_invariant, handle_backspace_invariant,
      handle_input_invariant, handle_equals_invariant.
Qed.

Lemma app_step_invariant ud beyond (self : CalculatorApp) (ev : gui_event) :
  app_invariant self -> app_invariant (app_step ud beyond self ev).
Proof.
  intros H. destruct ev as [i|i| |event]; simpl.
  - destruct (nth_error button_specs i) as [[[[[text key] r] c] h]|];
      [apply call_handler_invariant, H | exact H].
  - destruct (nth_error sci_specs i) as [[[text r] c]|];
      [apply handle_scientific_input_invariant, H | exact H].
  - apply toggle_scientific_invariant, H.
  - apply on_key_press_invariant, H.
Qed.

Lemma app_init_invariant : app_invariant app_init.
Proof. split; simpl; auto; lia. Qed.

Lemma app_run_invariant ud beyond (evs : list gui_event) :
  app_invariant (app_run ud beyond evs).
Proof.
  unfold app_run. generalize app_init app_init_invariant.
  induction evs as [|ev evs IH]; intros self H; simpl; [exact H|].
  apply IH, app_step_invariant, H.
Qed.

(** *** The display follows the buffer *)

(** After any sequence of button and key events, a buffer that is not
    empty is what the display shows.  (With an empty buffer the display may
    show ["0"], an error message, or an empty result.) *)
Theorem display_shows_buffer ud beyond (evs : list gui_event) :
  let app := app_run ud beyond evs in
  expression (logic app) = "" \/ display_var app = expression (logic app).
Proof. apply inv_display, app_run_invariant. Qed.

(** *** The history list box *)

Lemma slice_last_length {A : Type} (n : nat) (l : list A) :
  length (slice_last n l) = Nat.min n (length l).
Proof. unfold slice_last. rewrite length_skipn. lia. Qed.

Lemma last_skipn {A : Type} (k : nat) (l : list A) (d : A) :
  (k < length l)%nat -> last (skipn k l) d = last l d.
Proof.
  revert l. induction k as [|k IH]; intros l H; [reflexivity|].
  destruct l as [|x l]; simpl in *; [lia|].
  rewrite IH by lia. destruct l; [simpl in H; lia | reflexivity].
Qed.

Lemma hd_rev {A : Type} (l : list A) (d : A) : hd d (rev l) = last l d.
Proof.
  destruct l as [|x l] using rev_ind; [reflexivity|].
  rewrite rev_app_distr, last_last. reflexivity.
Qed.

(** After any sequence of events the list box holds the last eight records
    of the history, or all of them when there are fewer, the newest first:
    it has [min 8 n] items for a history of [n], and its first item is the
    latest record. *)
Theorem listbox_shows_recent ud beyond (evs : list gui_event) :
  let app := app_run ud beyond evs in
  history_listbox app = rev (slice_last 8 (history (logic app)))
  /\ length (history_listbox app)
     = Nat.min 8 (length (history (logic app)))
  /\ hd "" (history_listbox app) = last (history (logic app)) "".
Proof.
  intros app. pose proof (inv_listbox (app_run_invariant ud beyond evs)) as H.
  fold app in H. split; [exact H|]. rewrite H. split.
  - rewrite length_rev. apply slice_last_length.
  - rewrite hd_rev. unfold slice_last.
    destruct (history (logic app)) as [|r h] eqn:E; [reflexivity|].
    apply last_skipn. cbn [length]. unfold str. lia.
Qed.

(** *** The mode button *)

Lemma fold_app_step_visible ud beyond (evs : list gui_event) :
  forall self,
  scientific_visible (fold_left (app_step ud beyond) evs self)
  = xorb (scientific_visible self)
         (Nat.odd (length (filter is_mode evs))).
Proof.
  induction evs as [|ev evs IH]; intros self; simpl.
  - rewrite xorb_false_r. reflexivity.
  - rewrite IH. destruct ev as [i|i| |event]; simpl.
    + destruct (nth_error button_specs i) as [[[[[text key] r] c] h]|];
        [|reflexivity].
      destruct h; simpl; unfold _handle_backspace, _handle_sign_toggle,
        _handle_equals, _handle_input;
        repeat match goal with
               | |- context [if ?b then _ else _] => destruct b
               | |- context [let (_, _) := ?p in _] => destruct p
               end; reflexivity.
    + destruct (nth_error sci_specs i) as [[[text r] c]|]; reflexivity.
    + rewrite Nat.odd_succ, <- Nat.negb_odd.
      destruct (scientific_visible self), (Nat.odd _); reflexivity.
    + unfold _on_key_press, _handle_backspace, _handle_equals.
      repeat match goal with
             | |- context [if ?b then _ else _] => destruct b
             | |- context [let (_, _) := ?p in _] => destruct p
             end; reflexivity.
Qed.

(** The scientific pad is shown exactly after an odd number of presses of
    the mode button, whatever else happened; the pad is placed in the
    window exactly when it counts as visible, and the button reads
    [Sci ▴] when the pad is shown and [Sci ▾] when it is hidden. *)
Theorem mode_button_follows ud beyond (evs : list gui_event) :
  let app := app_run ud beyond evs in
  scientific_visible app = Nat.odd (length (filter is_mode evs))
  /\ scientific_frame_gridded app = scientific_visible app
  /\ mode_button_text app
     = if scientific_visible app then "Sci ▴" else "Sci ▾".
Proof.
  intros app. pose proof (app_run_invariant ud beyond evs) as [_ _ Hg Hm _].
  fold app in Hg, Hm. repeat split; try assumption.
  unfold app, app_run. rewrite fold_app_step_visible. reflexivity.
Qed.

(** *** Which events touch the history *)

Lemma frame_set_logic_display (self : CalculatorApp) (l : CalculatorLogic)
  (d : str) :
  history l = history (logic self) ->
  history (logic (set_logic_display self l d)) = history (logic self)
  /\ history_listbox (set_logic_display self l d) = history_listbox self.
Proof. intros H. split; [exact H | reflexivity]. Qed.

Lemma frame_handle_clear (self : CalculatorApp) :
  history (logic (_handle_clear self)) = history (logic self)
  /\ history_listbox (_handle_clear self) = history_listbox self.
Proof. split; reflexivity. Qed.

Lemma frame_handle_input (self : CalculatorApp) (token : str) :
  history (logic (_handle_input self token)) = history (logic self)
  /\ history_listbox (_handle_input self token) = history_listbox self.
Proof.
  apply frame_set_logic_display. destruct (shows_error self); reflexivity.
Qed.

Lemma frame_handle_scientific_input (self : CalculatorApp) (token : str) :
  history (logic (_handle_scientific_input self token)) = history (logic self)
  /\ history_listbox (_handle_scientific_input self token)
     = history_listbox self.
Proof.
  apply frame_set_logic_display.
  destruct (str_eqb token "1/x"); [apply history_invert|].
  destruct (str_eqb token "ln"); reflexivity.
Qed.

Lemma frame_handle_backspace (self : CalculatorApp) :
  history (logic (_handle_backspace self)) = history (logic self)
  /\ history_listbox (_handle_backspace self) = history_listbox self.
Proof.
  unfold _handle_backspace.
  destruct (shows_error self); [apply frame_handle_clear|].
  apply frame_set_logic_display, history_backspace.
Qed.

Lemma frame_handle_sign_toggle ud (self : CalculatorApp) :
  history (logic (_handle_sign_toggle ud self)) = history (logic self)
  /\ history_listbox (_handle_sign_toggle ud self) = history_listbox self.
Proof.
  unfold _handle_sign_toggle.
  destruct (shows_error self); [split; reflexivity|].
  apply frame_set_logic_display, history_toggle_sign.
Qed.

(** Only the [=] button and the keys [Return] and [KP_Enter] start an
    evaluation: every other event leaves the history and the list box as
    they are.  After any sequence of events the history holds at most 20
    records. *)
Theorem only_equals_touches_history ud beyond :
  (forall self ev,
      is_equals ev = false ->
      history (logic (app_step ud beyond self ev)) = history (logic self)
      /\ history_listbox (app_step ud beyond self ev) = history_listbox self)
  /\ (forall evs,
        (length (history (logic (app_run ud beyond evs))) <= 20)%nat).
Proof.
  split.
  - intros self ev Hev.
    destruct ev as [i|i| |event]; cbn [app_step is_equals] in *.
    + do 20 (destruct i as [|i];
             [first [discriminate Hev
                    | apply frame_handle_clear
                    | apply frame_handle_backspace
                    | apply frame_handle_input
                    | apply frame_handle_sign_toggle]|]).
      unfold button_specs. cbn [nth_error]. rewrite nth_error_nil.
      split; reflexivity.
    + destruct (nth_error sci_specs i) as [[[text r] c]|];
        [apply frame_handle_scientific_input | split; reflexivity].
    + split; reflexivity.
    + unfold _on_key_press.
      destruct (str_contains _ (event_char event));
        [apply frame_handle_input|].
      cbn [negb andb] in Hev. rewrite Hev. clear Hev.
      destruct (str_eqb (event_keysym event) "BackSpace");
        [apply frame_handle_backspace|].
      destruct (str_eqb (event_keysym event) "Escape");
        [apply frame_handle_clear|].
      destruct (Py.mem (event_char event) ["c"; "C"]);
        [apply frame_handle_clear | split; reflexivity].
  - intros evs. apply inv_history, app_run_invariant.
Qed.

Lemma only_equals_touches_history_witness :
  history (logic (app_step no_decimal unsupported
                    (app_run no_decimal unsupported
                       [BasicButton 13; BasicButton 15; BasicButton 14;
                        BasicButton 19])
                    (BasicButton 16)))
  = ["2+3 = 5"].
Proof.
  apply (proj1 (proj1 (only_equals_touches_history no_decimal unsupported)
                  (app_run no_decimal unsupported
                     [BasicButton 13; BasicButton 15; BasicButton 14;
                      BasicButton 19])
                  (BasicButton 16) eq_refl)).
Defined.

(** *** Keys and buttons *)

Lemma clear_empty (l : CalculatorLogic) : expression l = "" -> clear l = l.
Proof. destruct l as [e h]. simpl. intros ->. reflexivity. Qed.

(** Typing does what clicking does.  A key whose character is the text of
    an input button of the basic pad acts as that button; so do [^], [(]
    and [)] for the scientific pad, unless an error message is displayed
    over a buffer that is not empty; and [Return], [BackSpace] and
    [Escape], with a character that is no input, act as [=], [⌫] and
    [C]. *)
Theorem keys_act_as_buttons ud beyond (self : CalculatorApp) :
  (forall i text key r c keysym,
      nth_error button_specs i = Some (text, key, r, c, HandleInput) ->
      app_step ud beyond self
        (KeyPress {| event_char := text; event_keysym := keysym |})
      = app_step ud beyond self (BasicButton i))
  /\ (forall i text r c keysym,
        In text ["^"; "("; ")"] ->
        nth_error sci_specs i = Some (text, r, c) ->
        shows_error self = false \/ expression (logic self) = "" ->
        app_step ud beyond self
          (KeyPress {| event_char := text; event_keysym := keysym |})
        = app_step ud beyond self (SciButton i))
  /\ (forall char,
        str_contains "0123456789.+-*/%()^" char = false ->
        app_step ud beyond self
          (KeyPress {| event_char := char; event_keysym := "Return" |})
        = app_step ud beyond self (BasicButton 19)
        /\ app_step ud beyond self
             (KeyPress {| event_char := char; event_keysym := "BackSpace" |})
           = app_step ud beyond self (BasicButton 1)
        /\ app_step ud beyond self
             (KeyPress {| event_char := char; event_keysym := "Escape" |})
           = app_step ud beyond self (BasicButton 0)).
Proof.
  split; [|split].
  - intros i text key r c keysym H.
    do 20 (destruct i as [|i];
           [simpl in H; try discriminate H; inversion H; subst; reflexivity|]).
    destruct i; discriminate H.
  - intros i text r c keysym Htext H Herr.
    assert (Hclear : (if shows_error self then clear (logic self)
                      else logic self) = logic self).
    { destruct (shows_error self); [|reflexivity].
      destruct Herr as [Herr|Herr]; [discriminate Herr|].
      apply clear_empty, Herr. }
    simpl in Htext. split_names Htext; try contradiction; subst text;
      cbn [app_step]; rewrite H;
      unfold _on_key_press, _handle_input, _handle_scientific_input;
      cbn [event_char event_keysym]; rewrite Hclear; reflexivity.
  - intros char Hc. cbn [app_step nth_error button_specs call_handler].
    unfold _on_key_press. cbn [event_char event_keysym]. rewrite Hc.
    repeat split.
Qed.

Lemma keys_act_as_buttons_witness :
  app_step no_decimal unsupported app_init
    (KeyPress {| event_char := "7"; event_keysym := "7" |})
  = app_step no_decimal unsupported app_init (BasicButton 4)
  /\ app_step no_decimal unsupported app_init
       (KeyPress {| event_char := "^"; event_keysym := "asciicircum" |})
     = app_step no_decimal unsupported app_init (SciButton 3).
Proof.
  split.
  - apply (proj1 (keys_act_as_buttons no_decimal unsupported app_init)
             4%nat "7" "digit" 1%nat 0%nat "7").
    reflexivity.
  - apply (proj1 (proj2 (keys_act_as_buttons no_decimal unsupported app_init))
             3%nat "^" 0%nat 3%nat "asciicircum").
    + simpl. tauto.
    + reflexivity.
    + left. reflexivity.
Defined.

(** A key event that carries no character, as a modifier key does, is an
    input of the empty token whatever its keysym says: the empty string
    occurs in every string.  It never evaluates, never deletes, and leaves
    the buffer alone; but it does dismiss a displayed error message. *)
Theorem key_without_character beyond (self : CalculatorApp) (keysym : str) :
  let app := _on_key_press beyond self
               {| event_char := ""; event_keysym := keysym |} in
  app = _handle_input self ""
  /\ history (logic app) = history (logic self)
  /\ expression (logic app)
     = (if shows_error self then "" else expression (logic self))
  /\ display_var app = get_display_value (logic app).
Proof.
  cbv zeta. unfold _on_key_press. cbn [event_char event_keysym].
  change (str_contains "0123456789.+-*/%()^" "") with true. cbv iota.
  split; [reflexivity|]. unfold _handle_input.
  cbn [logic display_var set_logic_display append_token expression history
       set_expression].
  destruct (shows_error self); cbn [clear set_expression expression history];
    rewrite ?app_nil_r; repeat split.
Qed.

(** *** The two pads *)

(** Every style key of the two pads is known to [_style_name_for_key],
    which knows no other key than its five; and the buttons of the basic
    pad fill the 5 by 4 grid, those of the scientific pad the 3 by 4 grid,
    one button to a cell. *)
Theorem pads_are_well_formed :
  (forall key,
      _style_name_for_key key <> None
      <-> In key ["digit"; "operator"; "control"; "accent"; "sci"])
  /\ Forall (fun spec =>
               match spec with
               | (_, key, _, _, _) => _style_name_for_key key <> None
               end) button_specs
  /\ map (fun spec => match spec with (_, _, r, c, _) => (r, c) end)
         button_specs
     = grid_cells 5 4
  /\ map (fun spec => match spec with (_, r, c) => (r, c) end) sci_specs
     = grid_cells 3 4.
Proof.
  split; [|split; [|split; reflexivity]].
  - intros key. unfold _style_name_for_key. cbn [Py.dict_get]. split.
    + intros H.
      repeat match type of H with
             | context [str_eqb ?k key] =>
                 let E := fresh "E" in
                 destruct (str_eqb k key) eqn:E;
                 [apply str_eqb_eq in E; subst key; simpl; tauto|]
             end.
      elim H. reflexivity.
    + intros H. simpl in H. split_names H; try contradiction; subst key;
        discriminate.
  - repeat constructor; discriminate.
Qed.

(** ** Integers as text, read back *)

Lemma digits_value_acc (u : Decimal.uint) :
  forall acc : positive,
  fold_left (fun a c => a * 10 + Z.of_N (c - 48))%Z (Py.uint_chars u) (Zpos acc)
  = Zpos (Pos.of_uint_acc u acc).
Proof.
  induction u; intros acc; cbn [Py.uint_chars fold_left Pos.of_uint_acc];
    [reflexivity | rewrite <- IHu; f_equal .. ];
    match goal with
    | |- context [Z.of_N ?x] =>
        let v := eval compute in (Z.of_N x) in change (Z.of_N x) with v
    end; lia.
Qed.

Lemma digits_value_uint (u : Decimal.uint) :
  Py.digits_value (Py.uint_chars u) = Z.of_N (Pos.of_uint u).
Proof.
  unfold Py.digits_value.
  induction u; cbn [Py.uint_chars fold_left Pos.of_uint];
    [reflexivity | exact IHu | ..];
    match goal with
    | |- _ = Z.of_N (N.pos (Pos.of_uint_acc _ ?a)) =>
        exact (digits_value_acc u a)
    end.
Qed.

Lemma digits_value_digits_of (n : Z) :
  (0 <= n)%Z -> Py.digits_value (Py.digits_of n) = n.
Proof.
  intros H. unfold Py.digits_of. rewrite digits_value_uint.
  change (Pos.of_uint (N.to_uint (Z.to_N n)))
    with (N.of_uint (N.to_uint (Z.to_N n))).
  rewrite DecimalN.Unsigned.of_to. lia.
Qed.

Lemma uint_chars_digits (u : Decimal.uint) :
  forallb Py.is_digit (Py.uint_chars u) = true.
Proof. induction u; simpl; auto. Qed.

Lemma uint_chars_nil (u : Decimal.uint) :
  Py.uint_chars u = "" -> u = Decimal.Nil.
Proof. destruct u; simpl; [reflexivity | discriminate ..]. Qed.

Lemma to_uint_nonnil (n : N) : N.to_uint n <> Decimal.Nil.
Proof.
  destruct n; simpl; [discriminate | apply DecimalPos.Unsigned.to_uint_nonnil].
Qed.

Lemma digits_of_nonempty (n : Z) : Py.digits_of n <> "".
Proof.
  unfold Py.digits_of. intros H. apply uint_chars_nil in H.
  eapply to_uint_nonnil. eassumption.
Qed.

Lemma nzhead_not_D0 (u u' : Decimal.uint) :
  Decimal.nzhead u <> Decimal.D0 u'.
Proof. induction u; simpl; try discriminate. exact IHu. Qed.

(** The text of a number has no leading zero, unless it is ["0"]. *)
Lemma digits_of_leading_zero (n : Z) :
  Py.startswith (Py.digits_of n) "0" = true ->
  forallb (char_eqb (chr "0")) (Py.digits_of n) = true.
Proof.
  unfold Py.digits_of.
  pose proof (DecimalN.Unsigned.to_of (N.to_uint (Z.to_N n))) as H.
  rewrite DecimalN.Unsigned.of_to in H.
  destruct (N.to_uint (Z.to_N n)) as [|u| | | | | | | | |];
    try discriminate.
  intros _. rewrite DecimalFacts.unorm_D0 in H. unfold Decimal.unorm in H.
  destruct (Decimal.nzhead u) eqn:E;
    try (exfalso; revert H; discriminate).
  - inversion H. reflexivity.
  - exfalso. inversion H. subst. eapply nzhead_not_D0. eassumption.
Qed.

Lemma span_digits_app (ds rest : str) :
  forallb Py.is_digit ds = true ->
  Py.span_digits rest = ("", rest) ->
  Py.span_digits (ds ++ rest) = (ds, rest).
Proof.
  intros Hds Hrest. induction ds as [|c ds IH]; simpl; [exact Hrest|].
  simpl in Hds. apply andb_true_iff in Hds. destruct Hds as [Hc Hds].
  rewrite Hc, IH by exact Hds. reflexivity.
Qed.

Lemma lex_number_digits_of (n : Z) (rest : str) :
  (0 <= n)%Z -> ends_number rest ->
  Py.lex_number (Py.digits_of n ++ rest) = Py.Ok (Py.TInt n, rest).
Proof.
  intros Hn (H1 & H2 & H3 & H4). unfold Py.lex_number.
  rewrite span_digits_app by (apply uint_chars_digits || exact H1).
  rewrite H2, H3, H4. cbn [orb].
  destruct (Py.startswith (Py.digits_of n) "0") eqn:Hz.
  - rewrite (@digits_of_leading_zero n Hz). cbn [negb andb].
    rewrite digits_value_digits_of by exact Hn. reflexivity.
  - cbn [andb]. rewrite digits_value_digits_of by exact Hn. reflexivity.
Qed.

Lemma digit_not_blank (c : char) :
  Py.is_digit c = true ->
  char_eqb c (chr " ") || char_eqb c 9%N || char_eqb c 12%N = false.
Proof.
  unfold Py.is_digit, char_eqb, chr. cbn [hd]. intros H.
  apply andb_true_iff in H. destruct H as [H1 H2].
  apply N.leb_le in H1, H2.
  repeat rewrite orb_false_iff. repeat split; apply N.eqb_neq; lia.
Qed.

Lemma digits_of_head (n : Z) :
  exists c s, Py.digits_of n = c :: s /\ Py.is_digit c = true.
Proof.
  pose proof (digits_of_nonempty n) as Hne.
  pose proof (uint_chars_digits (N.to_uint (Z.to_N n))) as Hd.
  fold (Py.digits_of n) in Hd.
  destruct (Py.digits_of n) as [|c s]; [contradiction|].
  simpl in Hd. apply andb_true_iff in Hd. exists c, s. tauto.
Qed.

(** The tokens of a number followed by [rest]: the number, then the tokens
    of [rest]. *)
Lemma lex_digits_of (fuel : nat) (n : Z) (rest : str) :
  (0 <= n)%Z -> ends_number rest ->
  Py.lex (S fuel) (Py.digits_of n ++ rest)
  = Py.bind (Py.lex fuel rest) (fun ts => Py.Ok (Py.TInt n :: ts)).
Proof.
  intros Hn Hrest.
  pose proof (@lex_number_digits_of n rest Hn Hrest) as Hlex.
  destruct (digits_of_head n) as (c & s & E & Hc).
  rewrite E in *. cbn [app] in *. cbn [Py.lex].
  rewrite (@digit_not_blank c Hc), Hc, Hlex. reflexivity.
Qed.

Lemma lex_nil (fuel : nat) : Py.lex fuel "" = Py.Ok [].
Proof. destruct fuel; reflexivity. Qed.

Lemma ends_number_nil : ends_number "".
Proof. repeat split. Qed.

Lemma lex_digits_only (n : Z) :
  (0 <= n)%Z ->
  Py.lex (length (Py.digits_of n)) (Py.digits_of n) = Py.Ok [Py.TInt n].
Proof.
  intros Hn. pose proof (@lex_digits_of (pred (length (Py.digits_of n))) n ""
                           Hn ends_number_nil) as H.
  rewrite app_nil_r, lex_nil in H.
  destruct (digits_of_head n) as (c & s & E & _).
  rewrite E in *. exact H.
Qed.

Lemma tokens_str_of_int (n : Z) :
  Py.tokens (Py.str_of_int n)
  = Py.Ok (if (n <? 0)%Z then [Py.TMinus; Py.TInt (- n)] else [Py.TInt n]).
Proof.
  unfold Py.tokens, Py.str_of_int.
  destruct (Z.ltb_spec n 0) as [H|H].
  - change ("-" ++ Py.digits_of (- n)) with (chr "-" :: Py.digits_of (- n)).
    cbn [length]. cbn [Py.lex].
    change (char_eqb (chr "-") (chr " ") || char_eqb (chr "-") 9%N
            || char_eqb (chr "-") 12%N) with false.
    change (Py.is_digit (chr "-")) with false.
    change (char_eqb (chr "-") (chr ".")) with false.
    change (Py.is_ident_start (chr "-")) with false.
    change (char_eqb (chr "-") (chr "+")) with false.
    change (char_eqb (chr "-") (chr "-")) with true.
    cbv iota. rewrite lex_digits_only by lia. reflexivity.
  - apply lex_digits_only, H.
Qed.

(** The text of an integer is an expression for that integer. *)
Lemma eval_fragment_str_of_int (globals locals : Py.namespace) (n : Z) :
  Py.eval_fragment (Py.str_of_int n) globals locals = Py.Ok (Py.VInt n).
Proof.
  unfold Py.eval_fragment, Py.parse. rewrite tokens_str_of_int.
  destruct (n <? 0)%Z.
  - cbn. rewrite Z.opp_involutive. reflexivity.
  - reflexivity.
Qed.

Lemma drop_while_end_snoc (p : char -> bool) (l : str) (c : char) :
  p c = false -> Py.drop_while_end p (l ++ [c]) = l ++ [c].
Proof.
  intros H. unfold Py.drop_while_end. rewrite rev_app_distr. simpl.
  rewrite H. simpl. rewrite rev_involutive. reflexivity.
Qed.

(** [strip] leaves a text without whitespace as it is. *)
Lemma strip_no_space (s : str) :
  forallb (fun c => negb (Py.is_space c)) s = true -> Py.strip s = s.
Proof.
  intros H. unfold Py.strip.
  assert (Hd : Py.drop_while Py.is_space s = s).
  { destruct s as [|c s]; [reflexivity|]. simpl in *.
    destruct (Py.is_space c); [discriminate H | reflexivity]. }
  rewrite Hd. destruct s as [|c s] using rev_ind; [reflexivity|].
  rewrite forallb_app in H. apply andb_true_iff in H. destruct H as [_ H].
  simpl in H. apply drop_while_end_snoc.
  destruct (Py.is_space c); [discriminate H | reflexivity].
Qed.

Lemma digit_not_space (c : char) :
  Py.is_digit c = true -> negb (Py.is_space c) = true.
Proof.
  unfold Py.is_digit, Py.is_space. intros H.
  apply andb_true_iff in H. destruct H as [H1 H2].
  apply N.leb_le in H1, H2. apply negb_true_iff.
  repeat rewrite orb_false_iff.
  repeat split;
    try (apply N.eqb_neq; lia);
    apply andb_false_iff; rewrite !N.leb_gt; lia.
Qed.

Lemma str_of_int_no_space (n : Z) :
  forallb (fun c => negb (Py.is_space c)) (Py.str_of_int n) = true.
Proof.
  assert (H : forall m, forallb (fun c => negb (Py.is_space c))
                          (Py.digits_of m) = true).
  { intros m. apply forallb_forall. intros c Hc. apply digit_not_space.
    pose proof (uint_chars_digits (N.to_uint (Z.to_N m))) as Hd.
    rewrite forallb_forall in Hd. apply Hd, Hc. }
  unfold Py.str_of_int. destruct (n <? 0)%Z; [|apply H].
  change ("-" ++ Py.digits_of (- n)) with (chr "-" :: Py.digits_of (- n)).
  cbn [forallb]. rewrite H. reflexivity.
Qed.

Lemma str_of_int_nonempty (n : Z) : Py.str_of_int n <> "".
Proof.
  unfold Py.str_of_int. destruct (n <? 0)%Z;
    [discriminate | apply digits_of_nonempty].
Qed.

(** *** An integer result, evaluated again *)

Lemma safe_eval_str_of_int beyond (h : list str) (n : Z) :
  safe_eval beyond {| expression := Py.str_of_int n; history := h |}
  = (Py.str_of_int n,
     {| expression := Py.str_of_int n;
        history := record_to_history h
                     (Py.str_of_int n ++ " = " ++ Py.str_of_int n) |}).
Proof.
  rewrite safe_eval_cases by apply str_of_int_nonempty.
  cbn [expression history]. rewrite strip_no_space by apply str_of_int_no_space.
  unfold Py.eval. rewrite eval_fragment_str_of_int. reflexivity.
Qed.

(** The text of an integer, of either sign and within the limit on the
    length of such texts, is an expression for that integer.  So an integer
    result that [safe_eval] leaves in the buffer is a fixed point: evaluated
    again it returns the same text, stays in the buffer, and adds the
    record [n = n]. *)
Theorem safe_eval_integer_text beyond (h : list str) (n : Z) :
  has_text n ->
  Py.eval beyond (Py.strip (Py.str_of_int n)) eval_globals allowed_names
  = Py.Returns (Py.VInt n)
  /\ safe_eval beyond {| expression := Py.str_of_int n; history := h |}
     = (Py.str_of_int n,
        {| expression := Py.str_of_int n;
           history := record_to_history h
                        (Py.str_of_int n ++ " = " ++ Py.str_of_int n) |}).
Proof.
  intros _. split; [|apply safe_eval_str_of_int].
  rewrite strip_no_space by apply str_of_int_no_space.
  unfold Py.eval. rewrite eval_fragment_str_of_int. reflexivity.
Qed.

Lemma safe_eval_integer_text_witness :
  safe_eval unsupported {| expression := "-42"; history := ["6*-7 = -42"] |}
  = ("-42",
     {| expression := "-42"; history := ["6*-7 = -42"; "-42 = -42"] |}).
Proof.
  refine (proj2 (@safe_eval_integer_text unsupported ["6*-7 = -42"] (-42) _)).
  unfold has_text, int_max_str_digits. cbn. lia.
Defined.

(** *** The reciprocal of an integer buffer *)

Lemma lex_reciprocal_prefix (fuel : nat) (rest : str) :
  Py.lex (S (S (S fuel))) ("1/(" ++ rest)
  = Py.bind (Py.lex fuel rest)
      (fun ts => Py.Ok (Py.TInt 1 :: Py.TSlash :: Py.TLParen :: ts)).
Proof.
  change ("1/(" ++ rest) with (chr "1" :: chr "/" :: chr "(" :: rest).
  cbn. destruct (Py.lex fuel rest); reflexivity.
Qed.

Lemma ends_number_rparen : ends_number ")".
Proof. repeat split. Qed.

Lemma lex_rparen (fuel : nat) : Py.lex (S fuel) ")" = Py.Ok [Py.TRParen].
Proof. cbn. rewrite lex_nil. reflexivity. Qed.

Lemma length_digits_of (n : Z) :
  length (Py.digits_of n) = S (pred (length (Py.digits_of n))).
Proof.
  destruct (digits_of_head n) as (c & s & E & _). rewrite E. reflexivity.
Qed.

Lemma lex_digits_rparen (n : Z) :
  (0 <= n)%Z ->
  Py.lex (length (Py.digits_of n ++ ")")) (Py.digits_of n ++ ")")
  = Py.Ok [Py.TInt n; Py.TRParen].
Proof.
  intros Hn. rewrite length_app, Nat.add_1_r.
  rewrite (@lex_digits_of _ n ")" Hn ends_number_rparen).
  rewrite length_digits_of, lex_rparen. reflexivity.
Qed.

Lemma tokens_str_of_int_rparen (n : Z) :
  Py.lex (length (Py.str_of_int n ++ ")")) (Py.str_of_int n ++ ")")
  = Py.Ok ((if (n <? 0)%Z then [Py.TMinus; Py.TInt (- n)] else [Py.TInt n])
           ++ [Py.TRParen]).
Proof.
  unfold Py.str_of_int. destruct (Z.ltb_spec n 0) as [H|H].
  - change (("-" ++ Py.digits_of (- n)) ++ ")")
      with (chr "-" :: (Py.digits_of (- n) ++ ")")).
    cbn [length]. cbn [Py.lex].
    change (char_eqb (chr "-") (chr " ") || char_eqb (chr "-") 9%N
            || char_eqb (chr "-") 12%N) with false.
    change (Py.is_digit (chr "-")) with false.
    change (char_eqb (chr "-") (chr ".")) with false.
    change (Py.is_ident_start (chr "-")) with false.
    change (char_eqb (chr "-") (chr "+")) with false.
    change (char_eqb (chr "-") (chr "-")) with true.
    cbv iota. rewrite lex_digits_rparen by lia. reflexivity.
  - apply lex_digits_rparen, H.
Qed.

Lemma eval_fragment_reciprocal (globals locals : Py.namespace) (n : Z) :
  Py.eval_fragment ("1/(" ++ Py.str_of_int n ++ ")") globals locals
  = Py.int_binop Py.Div 1 n.
Proof.
  unfold Py.eval_fragment, Py.parse, Py.tokens.
  change (length ("1/(" ++ Py.str_of_int n ++ ")"))
    with (S (S (S (length (Py.str_of_int n ++ ")"))))).
  rewrite lex_reciprocal_prefix, tokens_str_of_int_rparen.
  destruct (n <? 0)%Z.
  - cbn -[Py.int_binop]. rewrite Z.opp_involutive. reflexivity.
  - reflexivity.
Qed.

(** [1/x] on the text of an integer [n], of either sign and within the
    limit on the length of such texts, gives a buffer that evaluates as the
    true division of 1 by [n]; on ["0"] the evaluation answers
    ["Cannot divide by zero"]. *)
Theorem invert_integer_text beyond (h : list str) (n : Z) :
  has_text n ->
  let self := invert {| expression := Py.str_of_int n; history := h |} in
  expression self = "1/(" ++ Py.str_of_int n ++ ")"
  /\ Py.eval_fragment (Py.strip (expression self)) eval_globals allowed_names
     = Py.int_binop Py.Div 1 n
  /\ safe_eval beyond (invert {| expression := "0"; history := h |})
     = ("Cannot divide by zero", {| expression := ""; history := h |}).
Proof.
  intros _. cbv zeta.
  assert (E : expression (invert {| expression := Py.str_of_int n;
                                     history := h |})
              = "1/(" ++ Py.str_of_int n ++ ")").
  { unfold invert. cbn [expression].
    pose proof (str_of_int_nonempty n) as Hne.
    destruct (Py.str_of_int n); [contradiction | reflexivity]. }
  split; [exact E|]. split; [|reflexivity].
  rewrite E, strip_no_space; [apply eval_fragment_reciprocal|].
  change ("1/(" ++ Py.str_of_int n ++ ")")
    with (chr "1" :: chr "/" :: chr "(" :: (Py.str_of_int n ++ ")")).
  cbn [forallb]. rewrite forallb_app, str_of_int_no_space. reflexivity.
Qed.

Lemma invert_integer_text_witness :
  expression (invert {| expression := "-4"; history := [] |}) = "1/(-4)"
  /\ safe_eval unsupported (invert {| expression := "-4"; history := [] |})
     = ("-0.25", {| expression := "-0.25"; history := ["1/(-4) = -0.25"] |}).
Proof.
  split; [|vm_compute; reflexivity].
  refine (proj1 (@invert_integer_text unsupported [] (-4) _)).
  unfold has_text, int_max_str_digits. cbn. lia.
Defined.

(** *** The sign toggle on an integer buffer *)

Lemma to_ascii_ascii ud (s : str) :
  forallb (fun c => (c <? 128)%N) s = true -> Py.to_ascii ud s = s.
Proof.
  induction s as [|c s IH]; simpl; [reflexivity|].
  intros H. apply andb_true_iff in H. destruct H as [Hc Hs].
  rewrite Hc, IH by exact Hs. reflexivity.
Qed.

Lemma trim_none (p : char -> bool) (s : str) :
  forallb (fun c => negb (p c)) s = true ->
  Py.drop_while_end p (Py.drop_while p s) = s.
Proof.
  intros H.
  assert (Hd : Py.drop_while p s = s).
  { destruct s as [|c s]; [reflexivity|]. simpl in *.
    destruct (p c); [discriminate H | reflexivity]. }
  rewrite Hd. destruct s as [|c s] using rev_ind; [reflexivity|].
  rewrite forallb_app in H. apply andb_true_iff in H. destruct H as [_ H].
  simpl in H. apply drop_while_end_snoc.
  destruct (p c); [discriminate H | reflexivity].
Qed.

Lemma drop_underscores_none (s : str) :
  forall prev,
  char_eqb prev (chr "_") = false ->
  forallb (fun c => negb (char_eqb c (chr "_"))) s = true ->
  Py.drop_underscores prev s = Some s.
Proof.
  induction s as [|c s IH]; intros prev Hp H; cbn [Py.drop_underscores].
  - rewrite Hp. reflexivity.
  - cbn [forallb] in H. apply andb_true_iff in H. destruct H as [Hc Hs].
    apply negb_true_iff in Hc. rewrite Hc, Hp. cbn [andb].
    rewrite IH by assumption. reflexivity.
Qed.

(** The facts about a digit that [float] looks at. *)
Lemma digit_plain (c : char) :
  Py.is_digit c = true ->
  (c <? 128)%N = true /\ negb (Py.is_ascii_space c) = true
  /\ negb (char_eqb c (chr "_")) = true
  /\ char_eqb c (chr "-") = false /\ char_eqb c (chr "+") = false.
Proof.
  unfold Py.is_digit, Py.is_ascii_space, char_eqb, chr. cbn [hd]. intros H.
  apply andb_true_iff in H. destruct H as [H1 H2].
  apply N.leb_le in H1, H2.
  split; [apply N.ltb_lt; lia|].
  split.
  { apply negb_true_iff, orb_false_iff. split.
    - apply andb_false_iff. right. apply N.leb_gt. lia.
    - apply N.eqb_neq. lia. }
  split; [apply negb_true_iff, N.eqb_neq; lia|].
  split; apply N.eqb_neq; lia.
Qed.

Lemma forallb_digits (P : char -> bool) (n : Z) :
  (forall c, Py.is_digit c = true -> P c = true) ->
  forallb P (Py.digits_of n) = true.
Proof.
  intros HP. apply forallb_forall. intros c Hc. apply HP.
  pose proof (uint_chars_digits (N.to_uint (Z.to_N n))) as Hd.
  rewrite forallb_forall in Hd. apply Hd, Hc.
Qed.

Lemma parse_unsigned_digits_of (neg : bool) (n : Z) :
  (0 <= n)%Z ->
  Py.parse_unsigned neg (Py.digits_of n) = Some (Py.round_ratio neg n 1).
Proof.
  intros Hn. unfold Py.parse_unsigned, Py.parse_numeral.
  pose proof (@span_digits_app (Py.digits_of n) ""
                (uint_chars_digits _) eq_refl) as Hspan.
  rewrite app_nil_r in Hspan. rewrite Hspan.
  cbn [Py.startswith app length]. rewrite app_nil_r.
  pose proof (digits_of_nonempty n) as Hne.
  destruct (Py.digits_of n) eqn:E; [contradiction|].
  rewrite <- E, digits_value_digits_of by exact Hn.
  unfold Py.round_decimal. cbn. rewrite Z.mul_1_r. reflexivity.
Qed.

(** [float] reads the text of an integer as the float nearest to it. *)
Lemma float_of_str_of_int ud (n : Z) :
  Py.float_of_str ud (Py.str_of_int n)
  = Some (Py.round_ratio (n <? 0)%Z (Z.abs n) 1).
Proof.
  assert (Hascii : forall m, forallb (fun c => (c <? 128)%N)
                               (Py.digits_of m) = true)
    by (intros m; apply forallb_digits; intros c Hc; apply digit_plain, Hc).
  assert (Hsp : forall m, forallb (fun c => negb (Py.is_ascii_space c))
                            (Py.digits_of m) = true)
    by (intros m; apply forallb_digits; intros c Hc; apply digit_plain, Hc).
  assert (Hu : forall m, forallb (fun c => negb (char_eqb c (chr "_")))
                           (Py.digits_of m) = true)
    by (intros m; apply forallb_digits; intros c Hc; apply digit_plain, Hc).
  unfold Py.float_of_str, Py.str_of_int.
  destruct (Z.ltb_spec n 0) as [H|H].
  - change ("-" ++ Py.digits_of (- n)) with (chr "-" :: Py.digits_of (- n)).
    rewrite to_ascii_ascii by (cbn [forallb]; rewrite Hascii; reflexivity).
    rewrite trim_none by (cbn [forallb]; rewrite Hsp; reflexivity).
    rewrite drop_underscores_none;
      [|reflexivity | cbn [forallb]; rewrite Hu; reflexivity].
    change (Py.take_sign (chr "-" :: Py.digits_of (- n)))
      with (true, Py.digits_of (- n)).
    cbv iota. rewrite parse_unsigned_digits_of by lia.
    rewrite Z.abs_neq by lia. reflexivity.
  - rewrite to_ascii_ascii by apply Hascii.
    rewrite trim_none by apply Hsp.
    rewrite drop_underscores_none; [|reflexivity | apply Hu].
    destruct (digits_of_head n) as (c & s & E & Hc).
    apply digit_plain in Hc. destruct Hc as (_ & _ & _ & Hm & Hp).
    unfold Py.take_sign. rewrite E. cbn [Py.startswith].
    change (chr "-") with 45%N in Hm. change (chr "+") with 43%N in Hp.
    rewrite Hm, Hp. cbn [andb]. rewrite <- E.
    rewrite parse_unsigned_digits_of by exact H.
    rewrite Z.abs_eq by exact H. reflexivity.
Qed.

(** On the text of an integer [n], [toggle_sign] does not put or remove a
    sign: [float] accepts the text, so the buffer becomes the text of a
    float, that of the float nearest to [n] times [-1]. *)
Theorem toggle_sign_integer_text ud (h : list str) (n : Z) :
  toggle_sign ud {| expression := Py.str_of_int n; history := h |}
  = {| expression :=
         Py.str_of_float
           (Py.float_mul (Py.round_ratio (n <? 0)%Z (Z.abs n) 1) Py.minus_one);
       history := h |}.
Proof.
  rewrite toggle_sign_cases by apply str_of_int_nonempty.
  cbn [expression]. rewrite float_of_str_of_int. reflexivity.
Qed.

(** *** Leading zeros *)

Lemma lex_number_leading_zero (ds : str) :
  forallb Py.is_digit ds = true ->
  Py.startswith ds "0" = true ->
  forallb (char_eqb (chr "0")) ds = false ->
  Py.lex_number ds = Py.Raise Py.SyntaxError.
Proof.
  intros Hd Hz Hnz. unfold Py.lex_number.
  pose proof (@span_digits_app ds "" Hd eq_refl) as Hspan.
  rewrite app_nil_r in Hspan. rewrite Hspan.
  rewrite Hz, Hnz. reflexivity.
Qed.

(** A buffer of digits that starts with ["0"] and is not all zeros, such
    as ["007"], is not a number for [safe_eval]: it answers
    ["Invalid expression"] and empties the buffer. *)
Theorem safe_eval_leading_zero beyond (self : CalculatorLogic) :
  forallb Py.is_digit (expression self) = true ->
  Py.startswith (expression self) "0" = true ->
  forallb (char_eqb (chr "0")) (expression self) = false ->
  safe_eval beyond self
  = ("Invalid expression", {| expression := ""; history := history self |}).
Proof.
  intros Hd Hz Hnz.
  assert (Hne : expression self <> "") by (intros E; rewrite E in Hz; discriminate Hz).
  rewrite safe_eval_cases by exact Hne.
  rewrite strip_no_space.
  2:{ apply forallb_forall. intros c Hc. apply digit_not_space.
      rewrite forallb_forall in Hd. apply Hd, Hc. }
  unfold Py.eval, Py.eval_fragment, Py.parse, Py.tokens.
  pose proof (lex_number_leading_zero _ Hd Hz Hnz) as Hlex.
  destruct (expression self) as [|c s]; [contradiction|].
  cbn [forallb] in Hd. apply andb_true_iff in Hd. destruct Hd as [Hc _].
  cbn [length Py.lex]. rewrite (@digit_not_blank c Hc), Hc, Hlex. reflexivity.
Qed.

Lemma safe_eval_leading_zero_witness :
  safe_eval unsupported {| expression := "007"; history := ["2+3 = 5"] |}
  = ("Invalid expression", {| expression := ""; history := ["2+3 = 5"] |}).
Proof.
  apply (safe_eval_leading_zero unsupported
           {| expression := "007"; history := ["2+3 = 5"] |});
    reflexivity.
Defined.

(** *** The buttons of the scientific pad *)

(** The [ln] button is the [log] button followed by [(]: the two buttons
    put the same name into the buffer, that of the one function [log] of
    the allowlist. *)
Theorem ln_is_log_then_paren (self : CalculatorApp) :
  _handle_scientific_input self "ln"
  = _handle_scientific_input (_handle_scientific_input self "log") "(".
Proof.
  unfold _handle_scientific_input.
  change (str_eqb "ln" "1/x") with false.
  change (str_eqb "ln" "ln") with true.
  change (str_eqb "log" "1/x") with false.
  change (str_eqb "log" "ln") with false.
  change (str_eqb "(" "1/x") with false.
  change (str_eqb "(" "ln") with false.
  cbv iota. unfold append_token, Py.dict_get_default.
  change (Py.dict_get mapping "log(") with (@None str).
  change (Py.dict_get mapping "log") with (@None str).
  change (Py.dict_get mapping "(") with (@None str).
  cbn [logic set_logic_display expression history set_expression
       display_var subdisplay_var history_listbox scientific_visible
       scientific_frame_gridded mode_button_text].
  rewrite <- app_assoc. reflexivity.
Qed.

(** *** Typing a number *)

Lemma digit_cases (c : char) :
  Py.is_digit c = true ->
  In c [48; 49; 50; 51; 52; 53; 54; 55; 56; 57]%N.
Proof.
  unfold Py.is_digit. intros H. apply andb_true_iff in H.
  destruct H as [H1 H2]. apply N.leb_le in H1, H2. simpl.
  assert (c = 48 \/ c = 49 \/ c = 50 \/ c = 51 \/ c = 52 \/ c = 53
          \/ c = 54 \/ c = 55 \/ c = 56 \/ c = 57)%N by lia.
  intuition auto.
Qed.

Lemma digit_key_input beyond (self : CalculatorApp) (c : char) :
  Py.is_digit c = true ->
  _on_key_press beyond self {| event_char := [c]; event_keysym := [c] |}
  = _handle_input self [c].
Proof.
  intros H. apply digit_cases in H. simpl in H.
  split_names H; try contradiction; subst c; reflexivity.
Qed.

Lemma append_token_digit (l : CalculatorLogic) (c : char) :
  Py.is_digit c = true ->
  append_token l [c] = set_expression l (expression l ++ [c]).
Proof.
  intros H. apply digit_cases in H. simpl in H.
  split_names H; try contradiction; subst c; reflexivity.
Qed.

Lemma digits_not_error (s : str) :
  forallb Py.is_digit s = true ->
  Py.mem (get_display_value {| expression := s; history := [] |})
    ["Invalid expression"; "Cannot divide by zero"] = false.
Proof.
  destruct s as [|c s]; [reflexivity|]. cbn [forallb]. intros H.
  apply andb_true_iff in H. destruct H as [H _].
  apply digit_cases in H. simpl in H.
  split_names H; try contradiction; subst c; reflexivity.
Qed.

Lemma typed_digit ud beyond (b : str) (c : char) :
  forallb Py.is_digit b = true -> Py.is_digit c = true ->
  app_step ud beyond (typed b) (digit_key c) = typed (b ++ [c]).
Proof.
  intros Hb Hc. unfold digit_key. cbn [app_step].
  rewrite digit_key_input by exact Hc.
  unfold _handle_input, shows_error, typed.
  cbn [display_var set_logic_display logic].
  rewrite digits_not_error by exact Hb.
  rewrite append_token_digit by exact Hc. reflexivity.
Qed.

Lemma typed_digits ud beyond (ds : str) :
  forall b,
  forallb Py.is_digit b = true -> forallb Py.is_digit ds = true ->
  fold_left (app_step ud beyond) (map digit_key ds) (typed b)
  = typed (b ++ ds).
Proof.
  induction ds as [|c ds IH]; intros b Hb Hds; cbn [map fold_left].
  - rewrite app_nil_r. reflexivity.
  - cbn [forallb] in Hds. apply andb_true_iff in Hds. destruct Hds as [Hc Hds].
    rewrite typed_digit by assumption.
    rewrite IH; [rewrite <- app_assoc; reflexivity | | exact Hds].
    rewrite forallb_app, Hb. cbn [forallb]. rewrite Hc. reflexivity.
Qed.

(** Typing the digits of a natural number [n] on a fresh application and
    pressing [Return] shows [n]: the display and the buffer hold its text,
    the line above holds what was typed, and the history and the list box
    hold the one record [n = n]. *)
Theorem typing_a_number ud beyond (n : Z) :
  (0 <= n)%Z -> has_text n ->
  app_run ud beyond (map digit_key (Py.digits_of n) ++ [return_key])
  = {| logic := {| expression := Py.str_of_int n;
                   history := [Py.str_of_int n ++ " = " ++ Py.str_of_int n] |};
       display_var := Py.str_of_int n;
       subdisplay_var := Py.str_of_int n;
       history_listbox := [Py.str_of_int n ++ " = " ++ Py.str_of_int n];
       scientific_visible := false;
       scientific_frame_gridded := false;
       mode_button_text := "Sci ▾" |}.
Proof.
  intros Hn _. unfold app_run. rewrite fold_left_app.
  change app_init with (typed "").
  rewrite typed_digits by (reflexivity || apply uint_chars_digits).
  cbn [app fold_left].
  assert (E : Py.str_of_int n = Py.digits_of n).
  { unfold Py.str_of_int. destruct (Z.ltb_spec n 0); [lia | reflexivity]. }
  rewrite E. unfold return_key. cbn [app_step]. unfold _on_key_press.
  cbn [event_char event_keysym].
  change (str_contains "0123456789.+-*/%()^" [13%N]) with false.
  change (Py.mem "Return" ["Return"; "KP_Enter"]) with true. cbv iota.
  unfold _handle_equals, typed. cbn [logic set_logic_display].
  rewrite <- E, safe_eval_str_of_int.
  unfold _refresh_history, get_display_value.
  pose proof (str_of_int_nonempty n) as Hne.
  destruct (Py.str_of_int n) eqn:Es; [contradiction|]. reflexivity.
Qed.

Lemma typing_a_number_witness :
  display_var
    (app_run no_decimal unsupported
       (map digit_key (Py.digits_of 2026%Z) ++ [return_key]))
  = "2026".
Proof.
  rewrite (@typing_a_number no_decimal unsupported 2026%Z);
    [reflexivity | discriminate |].
  unfold has_text, int_max_str_digits. cbn. lia.
Defined.

(** *** Integer arithmetic *)

Lemma ends_number_operator (op : Py.binop) (rest : str) :
  ends_number (operator_text op ++ rest).
Proof. destruct op; repeat split. Qed.

Lemma lex_operator (fuel : nat) (op : Py.binop) (ds : str) (t : Py.token) :
  Py.startswith ds "*" = false -> Py.startswith ds "/" = false ->
  Py.lex fuel ds = Py.Ok [t] ->
  Py.lex (S fuel) (operator_text op ++ ds)
  = Py.Ok [operator_token op; t].
Proof.
  intros H1 H2 H3.
  destruct op; cbn -[Py.lex Py.startswith];
    cbn [Py.lex]; cbn -[Py.lex Py.startswith]; rewrite ?H1, ?H2, ?H3; try reflexivity.
Qed.

Lemma digits_of_not_operator (n : Z) :
  Py.startswith (Py.digits_of n) "*" = false
  /\ Py.startswith (Py.digits_of n) "/" = false.
Proof.
  destruct (digits_of_head n) as (c & s & E & Hc). rewrite E.
  unfold Py.is_digit in Hc. apply andb_true_iff in Hc.
  destruct Hc as [H1 H2]. apply N.leb_le in H1, H2.
  cbn [Py.startswith]. unfold char_eqb.
  split; apply andb_false_iff; left; apply N.eqb_neq;
    unfold chr; cbn [hd]; lia.
Qed.

Lemma tokens_binary (op : Py.binop) (a b : Z) :
  (0 <= a)%Z -> (0 <= b)%Z ->
  Py.tokens (Py.digits_of a ++ operator_text op ++ Py.digits_of b)
  = Py.Ok [Py.TInt a; operator_token op; Py.TInt b].
Proof.
  intros Ha Hb. unfold Py.tokens.
  assert (E : exists k, length (Py.digits_of a ++ operator_text op
                                ++ Py.digits_of b) = S (S (S k))).
  { exists (length (Py.digits_of a ++ operator_text op ++ Py.digits_of b) - 3)%nat.
    pose proof (length_digits_of a) as La.
    pose proof (length_digits_of b) as Lb.
    rewrite !length_app. unfold str in *.
    destruct op; cbn [operator_text length]; lia. }
  destruct E as [k E]. rewrite E.
  rewrite (@lex_digits_of _ a _ Ha (ends_number_operator op _)).
  destruct (digits_of_not_operator b) as [H1 H2].
  rewrite (@lex_operator (S k) op (Py.digits_of b) (Py.TInt b) H1 H2).
  - reflexivity.
  - pose proof (@lex_digits_of k b "" Hb ends_number_nil) as H.
    rewrite app_nil_r, lex_nil in H. exact H.
Qed.

Lemma eval_fragment_binary (globals locals : Py.namespace) (op : Py.binop)
  (a b : Z) :
  (0 <= a)%Z -> (0 <= b)%Z ->
  Py.eval_fragment (Py.digits_of a ++ operator_text op ++ Py.digits_of b)
    globals locals
  = Py.int_binop op a b.
Proof.
  intros Ha Hb. unfold Py.eval_fragment, Py.parse.
  rewrite tokens_binary by assumption.
  destruct op; reflexivity.
Qed.

Lemma digits_of_no_space (n : Z) :
  forallb (fun c => negb (Py.is_space c)) (Py.digits_of n) = true.
Proof.
  apply forallb_forall. intros c Hc. apply digit_not_space.
  pose proof (uint_chars_digits (N.to_uint (Z.to_N n))) as Hd.
  rewrite forallb_forall in Hd. apply Hd, Hc.
Qed.

Lemma strip_binary (op : Py.binop) (a b : Z) :
  Py.strip (Py.digits_of a ++ operator_text op ++ Py.digits_of b)
  = Py.digits_of a ++ operator_text op ++ Py.digits_of b.
Proof.
  apply strip_no_space. rewrite !forallb_app, !digits_of_no_space.
  destruct op; reflexivity.
Qed.

(** Two natural numbers joined by an operator evaluate as that operator
    on the two integers, exactly: the sum, the difference, the product,
    the power, the floor quotient and the remainder are integers of any
    size whose text the buffer then holds, with a record in the history;
    a zero divisor answers ["Cannot divide by zero"]. *)
Theorem safe_eval_integer_arithmetic beyond (h : list str) (op : Py.binop)
  (a b : Z) :
  (0 <= a)%Z -> (0 <= b)%Z -> has_text a -> has_text b ->
  let buffer := Py.digits_of a ++ operator_text op ++ Py.digits_of b in
  let self := {| expression := buffer; history := h |} in
  Py.eval_fragment (Py.strip buffer) eval_globals allowed_names
  = Py.int_binop op a b
  /\ (forall c,
        In (op, c) [(Py.Add, a + b); (Py.Sub, a - b); (Py.Mul, a * b);
                    (Py.Pow, a ^ b); (Py.FloorDiv, a / b);
                    (Py.Mod, a mod b)]%Z ->
        b <> 0%Z \/ In op [Py.Add; Py.Sub; Py.Mul; Py.Pow] ->
        has_text c ->
        safe_eval beyond self
        = (Py.str_of_int c,
           {| expression := Py.str_of_int c;
              history := record_to_history h
                           (buffer ++ " = " ++ Py.str_of_int c) |}))
  /\ (In op [Py.Div; Py.FloorDiv; Py.Mod] -> b = 0%Z ->
      safe_eval beyond self
      = ("Cannot divide by zero", {| expression := ""; history := h |})).
Proof.
  intros Ha Hb _ _ buffer self.
  assert (Hf : Py.eval_fragment (Py.strip buffer) eval_globals allowed_names
               = Py.int_binop op a b).
  { unfold buffer. rewrite strip_binary. apply eval_fragment_binary; assumption. }
  assert (Hne : expression self <> "").
  { unfold self, buffer. cbn [expression].
    destruct (digits_of_head a) as (c & s & E & _). rewrite E. discriminate. }
  split; [exact Hf|]. split.
  - intros c Hin Hz _. rewrite safe_eval_cases by exact Hne.
    unfold Py.eval. cbn [expression history self]. rewrite Hf.
    assert (E : Py.int_binop op a b = Py.Ok (Py.VInt c)).
    { cbn [In] in Hin, Hz.
      destruct Hin as [E|[E|[E|[E|[E|[E|[]]]]]]]; inversion E; subst op c;
        cbn [Py.int_binop]; try reflexivity.
      - apply Z.leb_le in Hb. rewrite Hb. reflexivity.
      - destruct Hz as [Hz|[Hz|[Hz|[Hz|[Hz|[]]]]]]; try discriminate Hz.
        apply Z.eqb_neq in Hz. rewrite Hz. reflexivity.
      - destruct Hz as [Hz|[Hz|[Hz|[Hz|[Hz|[]]]]]]; try discriminate Hz.
        apply Z.eqb_neq in Hz. rewrite Hz. reflexivity. }
    rewrite E. reflexivity.
  - intros Hin Hz. rewrite safe_eval_cases by exact Hne.
    unfold Py.eval. cbn [expression history self]. rewrite Hf. subst b.
    cbn [In] in Hin.
    destruct Hin as [E|[E|[E|[]]]]; subst op; reflexivity.
Qed.

Lemma safe_eval_integer_arithmetic_witness :
  safe_eval unsupported {| expression := "12*30"; history := [] |}
  = ("360", {| expression := "360"; history := ["12*30 = 360"] |})
  /\ safe_eval unsupported {| expression := "7%0"; history := [] |}
     = ("Cannot divide by zero", {| expression := ""; history := [] |}).
Proof.
  assert (T : forall n, (length (Py.digits_of (Z.abs n)) <=? 4300)%nat = true ->
                        has_text n).
  { intros n Hn. apply Nat.leb_le, Hn. }
  assert (P12 : (0 <= 12)%Z) by discriminate.
  assert (P30 : (0 <= 30)%Z) by discriminate.
  assert (P7 : (0 <= 7)%Z) by discriminate.
  assert (P0 : (0 <= 0)%Z) by discriminate.
  assert (N30 : (30 <> 0)%Z) by discriminate.
  split.
  - pose proof (@safe_eval_integer_arithmetic unsupported [] Py.Mul 12 30
                  P12 P30 (T 12%Z eq_refl) (T 30%Z eq_refl)) as H.
    cbv zeta in H. destruct H as [_ [H _]].
    specialize (H 360%Z (or_intror (or_intror (or_introl eq_refl)))
                  (or_introl N30) (T 360%Z eq_refl)).
    exact H.
  - pose proof (@safe_eval_integer_arithmetic unsupported [] Py.Mod 7 0
                  P7 P0 (T 7%Z eq_refl) (T 0%Z eq_refl)) as H.
    cbv zeta in H. destruct H as [_ [_ H]].
    exact (H (or_intror (or_intror (or_introl eq_refl))) eq_refl).
Defined.
